(** * Crop recommendation form (task7.py): model and verified properties

    The program is a single Tk form.  Seven entry widgets are read, parsed
    with [float], checked against fixed ranges, handed to a random forest
    trained once at import time, and the answer is rendered as a label, a
    cultivation guide taken from the static table [BASE_INFO] and a bar chart
    of class probabilities.  A second button looks a crop up by name.

    The development follows the file top to bottom: the Python built-ins the
    callbacks rely on ([str.capitalize], [str.strip], [float], [str] of an
    [int], the [.2f] format), the scikit-learn pieces ([LabelEncoder],
    [train_test_split]), the module globals, the application state and the
    four methods of [CropRecommendationApp]; the properties come last.

    Text is modelled as [string], i.e. a sequence of bytes holding the UTF-8
    encoding; the case and white space functions act on the ASCII range and
    leave the other bytes alone. *)

From Stdlib Require Import ZArith QArith Qround Bool List Ascii String Lia.
From Stdlib Require Import Permutation Sorted.
Import ListNotations.

Local Open Scope string_scope.
Local Open Scope Z_scope.

(* ------------------------------------------------------------------------- *)
(** * Python strings *)
(* ------------------------------------------------------------------------- *)

Module PyStr.

Definition code (c : ascii) : Z := Z.of_N (N_of_ascii c).
Definition chr (n : Z) : ascii := ascii_of_N (Z.to_N n).

Definition is_lower (c : ascii) : bool := (97 <=? code c) && (code c <=? 122).
Definition is_upper (c : ascii) : bool := (65 <=? code c) && (code c <=? 90).

Definition to_upper (c : ascii) : ascii := if is_lower c then chr (code c - 32) else c.
Definition to_lower (c : ascii) : ascii := if is_upper c then chr (code c + 32) else c.

(** [str.lower]. *)
Fixpoint lower (s : string) : string :=
  match s with
  | EmptyString => EmptyString
  | String c r => String (to_lower c) (lower r)
  end.

(** [str.capitalize]: first character upper-cased, every other one
    lower-cased. *)
Definition capitalize (s : string) : string :=
  match s with
  | EmptyString => EmptyString
  | String c r => String (to_upper c) (lower r)
  end.

(** White space for [str.strip]: TAB, LF, VT, FF, CR, FS, GS, RS, US and
    the space. *)
Definition is_space (c : ascii) : bool :=
  ((9 <=? code c) && (code c <=? 13)) || ((28 <=? code c) && (code c <=? 32)).

Fixpoint lstrip (s : string) : string :=
  match s with
  | EmptyString => EmptyString
  | String c r => if is_space c then lstrip r else s
  end.

Fixpoint rstrip (s : string) : string :=
  match s with
  | EmptyString => EmptyString
  | String c r =>
      match rstrip r with
      | EmptyString => if is_space c then EmptyString else String c EmptyString
      | r' => String c r'
      end
  end.

(** [str.strip()] with no argument. *)
Definition strip (s : string) : string := rstrip (lstrip s).

(** [s * n] for a string [s]. *)
Fixpoint repeat (s : string) (n : nat) : string :=
  match n with
  | O => EmptyString
  | S k => s ++ repeat s k
  end.

(** [needle in haystack] for two strings. *)
Fixpoint contains (needle haystack : string) : bool :=
  String.prefix needle haystack ||
  match haystack with
  | EmptyString => false
  | String _ r => contains needle r
  end.

Definition digit_char (d : Z) : ascii := chr (48 + d).

Fixpoint digits_of (fuel : nat) (n : Z) (acc : string) : string :=
  match fuel with
  | O => acc
  | S k =>
      let acc' := String (digit_char (n mod 10)) acc in
      if n / 10 =? 0 then acc' else digits_of k (n / 10) acc'
  end.

(** [str(n)] for an [int]: decimal digits, a leading minus sign when
    negative.  A number [n] has at most [log2 n + 1] decimal digits. *)
Definition str (n : Z) : string :=
  let a := Z.abs n in
  let ds := digits_of (S (Z.to_nat (Z.log2 a))) a EmptyString in
  if n <? 0 then String "-" ds else ds.

Definition nl : string := String (chr 10) EmptyString.



End PyStr.

(* ------------------------------------------------------------------------- *)
(** * Python floats *)
(* ------------------------------------------------------------------------- *)

Module PyFloat.

(** A Python [float] is an IEEE binary64 value.  Every finite one is a
    rational number, so the finite values are carried as [Q]; the two
    infinities and NaN stay apart.  Negative zero is identified with zero:
    the program only compares and formats numbers at least zero. *)
Inductive pyfloat : Type :=
  | Finite (q : Q)
  | Inf (negative : bool)
  | NaN.

(** [n <= x] and [x <= n] for an [int] [n] and a [float] [x].  Python
    compares an int with a float by exact value; any comparison with NaN is
    false. *)
Definition int_le_float (n : Z) (x : pyfloat) : bool :=
  match x with
  | Finite q => Qle_bool (inject_Z n) q
  | Inf negative => negb negative
  | NaN => false
  end.

Definition float_le_int (x : pyfloat) (n : Z) : bool :=
  match x with
  | Finite q => Qle_bool q (inject_Z n)
  | Inf negative => negative
  | NaN => false
  end.

(** [n / d] rounded to the nearest integer, ties to even ([0 <= n], [0 < d]). *)
Definition round_half_even (n d : Z) : Z :=
  let q := n / d in
  match (2 * (n mod d) ?= d) with
  | Lt => q
  | Gt => q + 1
  | Eq => if Z.even q then q else q + 1
  end.

(** Round a rational to the nearest binary64 (ties to even): 53 bits of
    precision, least exponent -1074, overflow to infinity at 2^1024. *)
Definition binary64 (q : Q) : pyfloat :=
  let n := Z.abs (Qnum q) in
  let d := Zpos (Qden q) in
  if n =? 0 then Finite 0 else
  let e0 := Z.log2 n - Z.log2 d in
  let e := if n * 2 ^ Z.max 0 (- e0) <? d * 2 ^ Z.max 0 e0 then e0 - 1 else e0 in
  let ex := Z.max (e - 52) (-1074) in
  let m := round_half_even (n * 2 ^ Z.max 0 (- ex)) (d * 2 ^ Z.max 0 ex) in
  if 2 ^ 1024 <=? m * 2 ^ Z.max 0 ex then Inf (Qnum q <? 0)
  else Finite (Qred (Qmake (Z.sgn (Qnum q) * m * 2 ^ Z.max 0 ex)
                           (Z.to_pos (2 ^ Z.max 0 (- ex))))).

(** [x * n] for a float [x] and an int [n] (the int is converted, the
    product rounded). *)
Definition mul_int (x : Q) (n : Z) : pyfloat := binary64 (x * inject_Z n).

(** White space skipped by [float] around its argument. *)
Definition is_space (c : ascii) : bool :=
  ((9 <=? PyStr.code c) && (PyStr.code c <=? 13)) || (PyStr.code c =? 32).

Fixpoint skip_space (s : string) : string :=
  match s with
  | EmptyString => EmptyString
  | String c r => if is_space c then skip_space r else s
  end.

Fixpoint drop_space_right (s : string) : string :=
  match s with
  | EmptyString => EmptyString
  | String c r =>
      match drop_space_right r with
      | EmptyString => if is_space c then EmptyString else String c EmptyString
      | r' => String c r'
      end
  end.

Definition digit_of (c : ascii) : option Z :=
  let n := PyStr.code c in
  if (48 <=? n) && (n <=? 57) then Some (n - 48) else None.

Definition is_digit (c : ascii) : bool :=
  match digit_of c with Some _ => true | None => false end.

(** Digit grouping: an underscore is allowed only between two digits.
    [prev] is the character before [s], if any. *)
Fixpoint drop_underscores (prev : option ascii) (s : string) : option string :=
  match s with
  | EmptyString =>
      match prev with
      | Some "_"%char => None
      | _ => Some EmptyString
      end
  | String c r =>
      if Ascii.eqb c "_" then
        match prev with
        | Some p => if is_digit p then drop_underscores (Some c) r else None
        | None => None
        end
      else
        match prev with
        | Some "_"%char =>
            if is_digit c
            then option_map (String c) (drop_underscores (Some c) r)
            else None
        | _ => option_map (String c) (drop_underscores (Some c) r)
        end
  end.

Definition take_sign (s : string) : bool * string :=
  match s with
  | String "-" r => (true, r)
  | String "+" r => (false, r)
  | _ => (false, s)
  end.

(** Reads a run of digits: the number read so far, how many digits, and
    the rest. *)
Fixpoint span_digits (s : string) (acc : Z) (count : nat) : Z * nat * string :=
  match s with
  | EmptyString => (acc, count, EmptyString)
  | String c r =>
      match digit_of c with
      | Some d => span_digits r (10 * acc + d) (S count)
      | None => (acc, count, s)
      end
  end.

Definition pow10 (e : Z) : Q :=
  if 0 <=? e then inject_Z (10 ^ e) else Qmake 1 (Z.to_pos (10 ^ (- e))).

(** A decimal literal: digits with an optional fraction and an optional
    exponent, at least one digit in the mantissa. *)
Definition parse_decimal (negative : bool) (s : string) : option pyfloat :=
  let '(ip, ni, s2) := span_digits s 0 0 in
  let '(mant, nf, s3) :=
    match s2 with
    | String "." r => span_digits r ip 0
    | _ => (ip, O, s2)
    end in
  if (ni + nf =? 0)%nat then None else
  let '(ex, s4) :=
    match s3 with
    | String c r =>
        if Ascii.eqb c "e" || Ascii.eqb c "E" then
          let '(eneg, r1) := take_sign r in
          let '(ev, ne, r2) := span_digits r1 0 0 in
          if (ne =? 0)%nat then (0, s3) else ((if eneg then - ev else ev), r2)
        else (0, s3)
    | EmptyString => (0, EmptyString)
    end in
  match s4 with
  | EmptyString =>
      let v := (inject_Z mant * pow10 (ex - Z.of_nat nf))%Q in
      Some (binary64 (if negative then Qopp v else v))
  | _ => None
  end.

(** The built-in [float] applied to a [str]; [None] is [ValueError]. *)
Definition float (s : string) : option pyfloat :=
  match drop_underscores None (drop_space_right (skip_space s)) with
  | None => None
  | Some t =>
      let '(negative, body) := take_sign t in
      let word := PyStr.lower body in
      if (word =? "inf")%string || (word =? "infinity")%string then Some (Inf negative)
      else if (word =? "nan")%string then Some NaN
      else parse_decimal negative body
  end.

(** [format(x, '.2f')]: two digits after the point, the exact value rounded
    half to even. *)
Definition format_2f (x : pyfloat) : string :=
  match x with
  | NaN => "nan"
  | Inf negative => if negative then "-inf" else "inf"
  | Finite q =>
      let n := round_half_even (Z.abs (Qnum q) * 100) (Zpos (Qden q)) in
      let frac := n mod 100 in
      (if Qnum q <? 0 then "-" else "") ++
      PyStr.str (n / 100) ++ "." ++
      String (PyStr.digit_char (frac / 10)) (String (PyStr.digit_char (frac mod 10)) EmptyString)
  end.

(** [np.max] of a one-dimensional array of finite floats; [None] is the
    [ValueError] raised on an empty array. *)
Definition np_max (l : list Q) : option Q :=
  match l with
  | [] => None
  | x :: r => Some (fold_left (fun m y => if Qle_bool m y then y else m) r x)
  end.

End PyFloat.

(* ------------------------------------------------------------------------- *)
(** * Python dicts with string keys *)
(* ------------------------------------------------------------------------- *)

Module PyDict.

(** A dict keeps its items in insertion order, and the program iterates
    over them, so a dict is the list of its items (keys pairwise distinct). *)
Definition dict (V : Type) : Type := list (string * V).

(** [d.get(k)], with [None] for a missing key. *)
Fixpoint get {V : Type} (d : dict V) (k : string) : option V :=
  match d with
  | [] => None
  | (k', v) :: r => if (k' =? k)%string then Some v else get r k
  end.

(** [k in d]. *)
Definition mem {V : Type} (k : string) (d : dict V) : bool :=
  match get d k with Some _ => true | None => false end.

(** [d.get(k, default)]. *)
Definition get_default {V : Type} (d : dict V) (k : string) (default : V) : V :=
  match get d k with Some v => v | None => default end.

Definition keys {V : Type} (d : dict V) : list string := map fst d.
Definition values {V : Type} (d : dict V) : list V := map snd d.

(** [d[k] = v] on a key already present keeps its position. *)
Fixpoint set {V : Type} (d : dict V) (k : string) (v : V) : dict V :=
  match d with
  | [] => [(k, v)]
  | (k', v') :: r => if (k' =? k)%string then (k, v) :: r else (k', v') :: set r k v
  end.

End PyDict.

(* ------------------------------------------------------------------------- *)
(** * scikit-learn and numpy *)
(* ------------------------------------------------------------------------- *)

Module Sklearn.

Import PyFloat.

(** Strings are ordered character by character, as numpy orders them. *)
Definition string_lt (a b : string) : Prop := String.compare a b = Lt.

Fixpoint insert_unique (x : string) (l : list string) : list string :=
  match l with
  | [] => [x]
  | y :: r =>
      match String.compare x y with
      | Lt => x :: l
      | Eq => l
      | Gt => y :: insert_unique x r
      end
  end.

(** [np.unique]: the distinct values, sorted. *)
Definition np_unique (l : list string) : list string :=
  fold_right insert_unique [] l.

(** Position of the first [x] in [l]; [length l] when there is none. *)
Fixpoint index_of (x : string) (l : list string) : nat :=
  match l with
  | [] => O
  | y :: r => if (y =? x)%string then O else S (index_of x r)
  end.

(** A fitted [LabelEncoder]. *)
Record LabelEncoder : Type := { classes_ : list string }.

(** [le.fit_transform(col)]: the encoder and the encoded column. *)
Definition fit_transform (col : list string) : LabelEncoder * list nat :=
  let classes := np_unique col in
  ({| classes_ := classes |}, map (fun c => index_of c classes) col).

(** [le.inverse_transform([y])[0]]; [None] is the [ValueError] raised on a
    label the encoder has not seen. *)
Definition inverse_transform (le : LabelEncoder) (y : nat) : option string :=
  nth_error (classes_ le) y.

(** Rows of [l] at the positions [idx].  The positions come from a
    permutation of [range(len(l))], so none is out of range. *)
Definition take {A : Type} (l : list A) (idx : list nat) : list A :=
  flat_map (fun i => match nth_error l i with Some x => [x] | None => [] end) idx.

(** The float [0.2]. *)
Definition test_size : Q := 3602879701896397 # 18014398509481984.

(** [ceil(test_size * n_samples)]. *)
Definition n_test (n_samples : nat) : nat :=
  match mul_int test_size (Z.of_nat n_samples) with
  | Finite q => Z.to_nat (Qceiling q)
  | _ => O
  end.

(** [train_test_split(X, y, test_size=0.2, random_state=42)].  [permutation]
    is what [RandomState(42).permutation(n_samples)] returns: the test rows
    are its first [n_test] positions and the training rows the others. *)
Definition train_test_split {A B : Type} (X : list A) (y : list B) (permutation : list nat)
  : list A * list A * list B * list B :=
  let n_samples := List.length X in
  let n_test := n_test n_samples in
  let n_train := (n_samples - n_test)%nat in
  let ind_test := firstn n_test permutation in
  let ind_train := firstn n_train (skipn n_test permutation) in
  (take X ind_train, take X ind_test, take y ind_train, take y ind_test).

(** [RandomForestClassifier(n_estimators=100, random_state=42)]: fitting and
    the two queries the program makes, each on a single row. *)
Class Classifier : Type := {
  Model : Type;
  fit : list (list Q) -> list nat -> Model;
  predict : Model -> list pyfloat -> nat;
  predict_proba : Model -> list pyfloat -> list Q
}.

(** What scikit-learn documents of a fitted forest: its classes are the
    distinct training labels, [predict] answers one of them, and
    [predict_proba] has one entry per class. *)
Definition classifier_contract `{Classifier} : Prop :=
  forall X y arr, y <> [] ->
    In (predict (fit X y) arr) y /\
    List.length (predict_proba (fit X y) arr) = List.length (nodup Nat.eq_dec y).

(** [barh(y, width)]: one bar per position; arrays of length one are
    broadcast, other length mismatches raise [ValueError] ([None]). *)
Definition barh (y : list string) (width : list Q) : option (list (string * Q)) :=
  if (List.length y =? List.length width)%nat then Some (combine y width)
  else match y, width with
       | [c], _ => Some (map (fun p => (c, p)) width)
       | _, [p] => Some (map (fun c => (c, p)) y)
       | _, _ => None
       end.

End Sklearn.

(** The module [random]: its hidden generator state and [random.sample]. *)
Class PyRandom : Type := {
  Rng : Type;
  sample : Rng -> list string -> nat -> list string * Rng
}.

(* ------------------------------------------------------------------------- *)
(** * Module globals of task7.py *)
(* ------------------------------------------------------------------------- *)

Import PyDict.

Definition n_samples : nat := 300.

(** The list [np.random.choice] draws the [Crop] column from. *)
Definition CROP_CHOICES : list string :=
  ["Rice"; "Wheat"; "Maize"; "Cotton"; "Sugarcane"; "Barley"; "Pulses"; "Coffee"].

Definition BASE_INFO : dict (dict string) :=
  [("Rice",
     [("Cultivation", "Paddy fields; transplant 20–30 day seedlings; maintain levees.");
      ("Water", "High — standing water required for much of the season.");
      ("Pests", "Stem borer, leaf folder; watch seedling & tillering stages.");
      ("Harvest", "When grains are golden and moisture ~20%.");
      ("Fertilizer", "Split N application; use urea and basal P/K.");
      ("Soil", "Clayey loam or alluvial soils (good water retention).");
      ("Climate", "Warm, humid climate; heavy rainfall preferred.")]);
   ("Wheat",
     [("Cultivation", "Sow in well-drained loamy soil; use certified seeds; maintain row spacing.");
      ("Water", "Moderate — critical during tillering & grain filling.");
      ("Pests", "Rusts, aphids; monitor during cool, humid weather.");
      ("Harvest", "Harvest when straw turns yellow and grains hard.");
      ("Fertilizer", "Basal N and top-dress at tillering; balanced NPK.");
      ("Soil", "Loamy soils with good drainage.");
      ("Climate", "Cool to moderate temperatures; less humid than rice.")]);
   ("Maize",
     [("Cultivation", "Sow 3–5 cm deep; ensure fertile soil; plant in rows for mechanized weeding.");
      ("Water", "Higher need at flowering & grain filling stages.");
      ("Pests", "Stem borers, cutworms; use crop rotation.");
      ("Harvest", "Harvest when cobs dry and kernels hard.");
      ("Fertilizer", "Apply N heavily early; add P & K as needed.");
      ("Soil", "Well-drained loam with organic matter.");
      ("Climate", "Warm climate; frost-free period needed.")]);
   ("Cotton",
     [("Cultivation", "Plant stem cuttings; prefer sunny, well-drained fields.");
      ("Water", "Moderate — avoid waterlogging; water more during boll formation.");
      ("Pests", "Bollworm, jassids; use integrated pest management.");
      ("Harvest", "Harvest when bolls open and lint is fluffy.");
      ("Fertilizer", "Balanced NPK; potassium important for lint quality.");
      ("Soil", "Black cotton soil or deep loamy soils.");
      ("Climate", "Warm climate; long growing season.")]);
   ("Sugarcane",
     [("Cultivation", "Plant setts in rows; incorporate green manure.");
      ("Water", "High — regular irrigation required.");
      ("Pests", "Borers, aphids; maintain field sanitation.");
      ("Harvest", "10–18 months depending on variety; harvest when cane is mature.");
      ("Fertilizer", "High N and K requirements; split applications.");
      ("Soil", "Sandy loam to clay loam with organic matter.");
      ("Climate", "Tropical to subtropical climates best.")]);
   ("Barley",
     [("Cultivation", "Sow in cooler season; good seedbed preparation.");
      ("Water", "Moderate — avoid waterlogging.");
      ("Pests", "Rusts; keep disease-resistant varieties when available.");
      ("Harvest", "When spikes yellow and grains firm.");
      ("Fertilizer", "Balanced NPK; lower N than wheat.");
      ("Soil", "Sandy loam to loam.");
      ("Climate", "Cool to moderate; tolerant to poorer soils.")]);
   ("Pulses",
     [("Cultivation", "Sow after rains; seeds often inoculated with Rhizobium.");
      ("Water", "Low to moderate — many pulses are drought tolerant.");
      ("Pests", "Pod borer and aphids; timely monitoring helps.");
      ("Harvest", "Harvest before pods shatter; dry properly.");
      ("Fertilizer", "Low N (fix nitrogen), apply P & K as needed.");
      ("Soil", "Light to medium soils; good drainage.");
      ("Climate", "Often tolerant to semi-arid conditions.")]);
   ("Coffee",
     [("Cultivation", "Shade-grown in rich, well-drained soils; careful pruning.");
      ("Water", "Regular moisture but good drainage required.");
      ("Pests", "Berry borer, leaf rust; pruning and sanitation important.");
      ("Harvest", "Pick ripe red cherries by hand.");
      ("Fertilizer", "Apply compost and balanced NPK; micronutrients helpful.");
      ("Soil", "Rich, slightly acidic soils (pH ~6–6.5).");
      ("Climate", "Tropical highlands; cooler nights and shade preferred.")])].

Definition EXTRA_TIPS : list string :=
  ["Rotate crops to keep soil healthy.";
   "Use mulching to retain soil moisture and suppress weeds.";
   "Prefer certified seeds for better germination and yields.";
   "Maintain good drainage to avoid root diseases.";
   "Use organic manure to improve soil structure."].

(* ------------------------------------------------------------------------- *)
(** * The application state and its effects *)
(* ------------------------------------------------------------------------- *)

Import PyFloat Sklearn.

(** What numpy's generator, seeded with 42, hands to the module body: the
    seven numeric columns row by row, the [Crop] column, and the permutation
    drawn inside [train_test_split]. *)
Record draws : Type := {
  X_rows : list (list Q);
  Crop : list string;
  permutation : list nat
}.

(** Calls that leave the process or repaint a widget, in program order. *)
Inductive event : Type :=
  | Fit (X_train : list (list Q)) (y_train : list nat)
  | ShowError (title message : string)
  | Predict (arr : list pyfloat)
  | PredictProba (arr : list pyfloat)
  | LabelConfig (text : string)
  | InfoInsert (text : string)
  | ChartDraw (bars : list (string * Q)).

Inductive exn : Type :=
  | ValueError (message : string)
  | KeyError (key : string).

Inductive result (A : Type) : Type :=
  | Done (a : A)
  | Raised (e : exn).

Arguments Done {A} a.
Arguments Raised {A} e.

Section App.

Context `{Classifier} `{PyRandom}.

(** Module globals, the widgets of the one [CropRecommendationApp], and the
    log of events so far. *)
Record world : Type := {
  base_info : dict (dict string);          (* BASE_INFO *)
  model : Model;                           (* model *)
  le : LabelEncoder;                       (* le *)
  rng : Rng;                               (* state of module random *)
  entries : dict string;                   (* self.entries: key to entry text *)
  search_var : string;                     (* self.search_var *)
  result_label : string;                   (* self.result_label text *)
  info_text : string;                      (* self.info_text content *)
  chart_frame : list (list (string * Q));  (* children of self.chart_frame *)
  log : list event
}.

Definition M (A : Type) : Type := world -> result A * world.

Definition ret {A : Type} (a : A) : M A := fun w => (Done a, w).

Definition bind {A B : Type} (c : M A) (k : A -> M B) : M B :=
  fun w =>
    match c w with
    | (Done a, w') => k a w'
    | (Raised e, w') => (Raised e, w')
    end.

Definition raise {A : Type} (e : exn) : M A := fun w => (Raised e, w).

Definition get_world : M world := fun w => (Done w, w).

Definition emit (e : event) : M unit :=
  fun w =>
    (Done tt,
     {| base_info := base_info w; model := model w; le := le w; rng := rng w;
        entries := entries w; search_var := search_var w;
        result_label := result_label w; info_text := info_text w;
        chart_frame := chart_frame w; log := log w ++ [e] |}).

Definition set_rng (r : Rng) : M unit :=
  fun w =>
    (Done tt,
     {| base_info := base_info w; model := model w; le := le w; rng := r;
        entries := entries w; search_var := search_var w;
        result_label := result_label w; info_text := info_text w;
        chart_frame := chart_frame w; log := log w |}).

Definition set_result_label (text : string) : M unit :=
  fun w =>
    (Done tt,
     {| base_info := base_info w; model := model w; le := le w; rng := rng w;
        entries := entries w; search_var := search_var w;
        result_label := text; info_text := info_text w;
        chart_frame := chart_frame w; log := log w |}).

Definition set_info_text (text : string) : M unit :=
  fun w =>
    (Done tt,
     {| base_info := base_info w; model := model w; le := le w; rng := rng w;
        entries := entries w; search_var := search_var w;
        result_label := result_label w; info_text := text;
        chart_frame := chart_frame w; log := log w |}).

Definition set_chart_frame (children : list (list (string * Q))) : M unit :=
  fun w =>
    (Done tt,
     {| base_info := base_info w; model := model w; le := le w; rng := rng w;
        entries := entries w; search_var := search_var w;
        result_label := result_label w; info_text := info_text w;
        chart_frame := children; log := log w |}).

Definition set_entries (es : dict string) (w : world) : world :=
  {| base_info := base_info w; model := model w; le := le w; rng := rng w;
     entries := es; search_var := search_var w;
     result_label := result_label w; info_text := info_text w;
     chart_frame := chart_frame w; log := log w |}.

Definition set_search_var (text : string) (w : world) : world :=
  {| base_info := base_info w; model := model w; le := le w; rng := rng w;
     entries := entries w; search_var := text;
     result_label := result_label w; info_text := info_text w;
     chart_frame := chart_frame w; log := log w |}.

End App.

Declare Scope py_scope.
Delimit Scope py_scope with py.
Notation "x <- c ;; k" := (bind c (fun x => k))
  (at level 61, c at next level, right associativity) : py_scope.
Notation "c ;; k" := (bind c (fun _ => k))
  (at level 61, right associativity) : py_scope.

(* ------------------------------------------------------------------------- *)
(** * The module body and [CropRecommendationApp] *)
(* ------------------------------------------------------------------------- *)

Section Methods.

Context `{Classifier} `{PyRandom}.

Local Open Scope py_scope.

(** Lines 15 to 37 and the two tables: the data is drawn, the labels
    encoded, the rows split, and the forest fitted on the training part. *)
Definition module_body (d : draws) (r : Rng) : world :=
  let '(le, CropLabel) := fit_transform (Crop d) in
  let '(X_train, X_test, y_train, y_test) :=
    train_test_split (X_rows d) CropLabel (permutation d) in
  {| base_info := BASE_INFO; model := fit X_train y_train; le := le; rng := r;
     entries := []; search_var := ""; result_label := ""; info_text := "";
     chart_frame := []; log := [Fit X_train y_train] |}.

Definition fields : list (string * string * string) :=
  [("Nitrogen (N)", "Nitrogen", "(0–150)");
   ("Phosphorus (P)", "Phosphorus", "(0–150)");
   ("Potassium (K)", "Potassium", "(0–150)");
   ("Temperature (°C)", "Temperature", "(10–40)");
   ("Humidity (%)", "Humidity", "(20–90)");
   ("Soil pH", "pH", "(4–9)");
   ("Rainfall (mm)", "Rainfall", "(50–300)")].

(** [__init__]: one empty entry per field, an empty search box, an empty
    result label, an empty guide and no chart. *)
Definition __init__ (w : world) : world :=
  {| base_info := base_info w; model := model w; le := le w; rng := rng w;
     entries := fold_left (fun es '(lbl, key, note) => PyDict.set es key "") fields [];
     search_var := ""; result_label := ""; info_text := "";
     chart_frame := []; log := log w |}.

(** [messagebox.showerror(title, message)]: returns once dismissed. *)
Definition showerror (title message : string) : M unit :=
  emit (ShowError title message).

(** [self.result_label.config(text=...)]. *)
Definition label_config (text : string) : M unit :=
  set_result_label text ;; emit (LabelConfig text).

(** [random.sample(population, k=k)]. *)
Definition random_sample (population : list string) (k : nat) : M (list string) :=
  fun w =>
    let '(picked, r) := sample (rng w) population k in
    (set_rng r ;; ret picked) w.

(** [{k: float(v.get()) for k, v in self.entries.items()}]; [None] is the
    [ValueError] of the first text that is not a number. *)
Fixpoint read_entries (es : dict string) : option (dict pyfloat) :=
  match es with
  | [] => Some []
  | (k, v) :: r =>
      match float v with
      | None => None
      | Some x => option_map (cons (k, x)) (read_entries r)
      end
  end.

Definition ranges : dict (Z * Z) :=
  [("Nitrogen", (0, 150)); ("Phosphorus", (0, 150)); ("Potassium", (0, 150));
   ("Temperature", (10, 40)); ("Humidity", (20, 90)); ("pH", (4, 9));
   ("Rainfall", (50, 300))].

(** The loop of lines 201 to 204 over the items of [ranges] still to
    visit.  The answer is [false] when the loop body ran its [return]. *)
Fixpoint check_ranges (inputs : dict pyfloat) (rs : dict (Z * Z)) : M bool :=
  match rs with
  | [] => ret true
  | (k, (low, high)) :: rest =>
      match PyDict.get inputs k with
      | None => raise (KeyError k)
      | Some x =>
          if negb (int_le_float low x && float_le_int x high) then
            showerror "Invalid Input"
              (k ++ " must be between " ++ PyStr.str low ++ " and " ++ PyStr.str high ++ ".") ;;
            ret false
          else check_ranges inputs rest
      end
  end.

Definition _show_crop_info (crop : string) (inputs : dict pyfloat) : M unit :=
  w <- get_world ;;
  let base := PyDict.get_default (base_info w) crop [] in
  let final_text :=
    "🌾 " ++ crop ++ " Cultivation Guide" ++ PyStr.nl ++ PyStr.repeat "-" 56
      ++ PyStr.nl ++ PyStr.nl in
  let final_text :=
    fold_left (fun acc '(heading, text) =>
                 acc ++ "🔹 " ++ heading ++ ": " ++ text ++ PyStr.nl ++ PyStr.nl)
              base final_text in
  let final_text := final_text ++ "📝 Extra Tips:" ++ PyStr.nl in
  tips <- random_sample EXTRA_TIPS 2 ;;
  let final_text :=
    fold_left (fun acc t => acc ++ "   • " ++ t ++ PyStr.nl) tips final_text in
  set_info_text final_text ;;
  emit (InfoInsert final_text).

Definition _show_chart (probs : list Q) : M unit :=
  set_chart_frame [] ;;
  w <- get_world ;;
  let crops := classes_ (le w) in
  match barh crops probs with
  | None => raise (ValueError "shape mismatch: objects cannot be broadcast to a single shape")
  | Some bars =>
      set_chart_frame [bars] ;;
      emit (ChartDraw bars)
  end.

Definition predict_crop : M unit :=
  w <- get_world ;;
  match read_entries (entries w) with
  | None => showerror "Invalid Input" "Please enter numeric values for all fields."
  | Some inputs =>
      passed <- check_ranges inputs ranges ;;
      if negb passed then ret tt else
      let arr := PyDict.values inputs in
      emit (Predict arr) ;;
      let pred_label := predict (model w) arr in
      match inverse_transform (le w) pred_label with
      | None => raise (ValueError "y contains previously unseen labels")
      | Some pred_crop =>
          emit (PredictProba arr) ;;
          let probs := predict_proba (model w) arr in
          match np_max probs with
          | None => raise (ValueError "zero-size array to reduction operation maximum which has no identity")
          | Some top =>
              let confidence := mul_int top 100 in
              label_config ("🌿 Recommended Crop: " ++ pred_crop
                              ++ "    ✅ Confidence: " ++ format_2f confidence ++ "%") ;;
              _show_crop_info pred_crop inputs ;;
              _show_chart probs
          end
      end
  end.

Definition search_crop : M unit :=
  w <- get_world ;;
  let crop := PyStr.strip (PyStr.capitalize (search_var w)) in
  if negb (PyDict.mem crop (base_info w)) then
    showerror "Not Found" ("Crop '" ++ crop ++ "' not found.")
  else
    label_config ("🌾 Information for " ++ crop ++ ":") ;;
    _show_crop_info crop [].

(** What can happen between two idle moments of [root.mainloop()]: the user
    edits one of the entries or the search box, or presses a button.  The
    direct calls of the two rendering methods are there to speak of them on
    their own.  Tk reports an exception raised in a callback and carries on. *)
Inductive action : Type :=
  | TypeEntry (key text : string)
  | TypeSearch (text : string)
  | ClickPredict
  | ClickSearch
  | CallShowCropInfo (crop : string) (inputs : dict pyfloat)
  | CallShowChart (probs : list Q).

Definition step (w : world) (a : action) : world :=
  match a with
  | TypeEntry key text =>
      if PyDict.mem key (entries w) then set_entries (PyDict.set (entries w) key text) w else w
  | TypeSearch text => set_search_var text w
  | ClickPredict => snd (predict_crop w)
  | ClickSearch => snd (search_crop w)
  | CallShowCropInfo crop inputs => snd (_show_crop_info crop inputs w)
  | CallShowChart probs => snd (_show_chart probs w)
  end.

Definition mainloop (acts : list action) (w : world) : world :=
  fold_left step acts w.

(** The process: module body, then the application object, then the event
    loop. *)
Definition run (d : draws) (r : Rng) (acts : list action) : world :=
  mainloop acts (__init__ (module_body d r)).

End Methods.

(* ------------------------------------------------------------------------- *)
(** * The mouse wheel *)
(* ------------------------------------------------------------------------- *)

(** [a / b] for two ints: the quotient rounded to the nearest float.  [None]
    is [ZeroDivisionError], or [OverflowError] when the quotient is too large
    for a float. *)
Definition int_truediv (a b : Z) : option pyfloat :=
  if b =? 0 then None else
  let q := if 0 <? b then Qmake a (Z.to_pos b) else Qmake (- a) (Z.to_pos (- b)) in
  match binary64 q with
  | Finite v => Some (Finite v)
  | _ => None
  end.

(** [-1 * x] for a float [x]: the int is converted to [-1.0], and a product
    by [-1.0] is exact, it changes the sign. *)
Definition neg_one_times (x : pyfloat) : pyfloat :=
  match x with
  | Finite q => Finite (- q)
  | Inf negative => Inf (negb negative)
  | NaN => NaN
  end.

(** [int(x)] for a float: the fraction is dropped, towards zero.  [None] is
    the [OverflowError] or [ValueError] raised on an infinity or NaN. *)
Definition int_of_float (x : pyfloat) : option Z :=
  match x with
  | Finite q => Some (if Qle_bool 0 q then Qfloor q else Qceiling q)
  | _ => None
  end.

(** [_on_mousewheel]: the number of units handed to
    [self.main_canvas.yview_scroll(..., "units")] for an event with the given
    [delta]; [None] when computing it raises. *)
Definition _on_mousewheel (delta : Z) : option Z :=
  match int_truediv delta 120 with
  | None => None
  | Some x => int_of_float (neg_one_times x)
  end.

(* ------------------------------------------------------------------------- *)
(** * A concrete run-time, to evaluate the model *)
(* ------------------------------------------------------------------------- *)

Module Sample.

(** A forest that remembers the distinct training labels, answers the first
    of them and gives every class the same probability. *)
#[export] Instance forest : Classifier := {|
  Model := list nat;
  fit := fun _ y => nodup Nat.eq_dec y;
  predict := fun m _ => hd O m;
  predict_proba := fun m _ => map (fun _ => Qred (1 # Pos.of_nat (List.length m))) m
|}.

(** A generator that always picks the first [k] elements. *)
#[export] Instance first_k : PyRandom := {|
  Rng := unit;
  sample := fun r population k => (firstn k population, r)
|}.

(** Three hundred rows: the crops in rotation, the same numbers in every
    row, and the identity permutation. *)
Definition drawn : draws :=
  {| X_rows := List.repeat [90; 42; 43; 21; 82; 13 # 2; 203]%Q n_samples;
     Crop := firstn n_samples (List.concat (List.repeat CROP_CHOICES 38));
     permutation := seq 0 n_samples |}.

(** The user fills in the seven entries. *)
Definition typing (n p k t h ph r : string) : list action :=
  [TypeEntry "Nitrogen" n; TypeEntry "Phosphorus" p; TypeEntry "Potassium" k;
   TypeEntry "Temperature" t; TypeEntry "Humidity" h; TypeEntry "pH" ph;
   TypeEntry "Rainfall" r].

(** The form as it is after start-up, with the seven entries filled in. *)
Definition filled (n p k t h ph r : string) : world :=
  run drawn tt (typing n p k t h ph r).

End Sample.

(* ------------------------------------------------------------------------- *)
(** * Vocabulary of the specification *)
(* ------------------------------------------------------------------------- *)

(** A value lies within an inclusive range: it is a number, not an infinity
    or NaN, and sits between the two bounds. *)
Definition in_range (low high : Z) (x : pyfloat) : Prop :=
  exists q : Q, x = Finite q /\ (inject_Z low <= q)%Q /\ (q <= inject_Z high)%Q.

(** The measurement record: the seven values in the order of the form. *)
Definition measurement (n p k t h ph r : pyfloat) : dict pyfloat :=
  [("Nitrogen", n); ("Phosphorus", p); ("Potassium", k); ("Temperature", t);
   ("Humidity", h); ("pH", ph); ("Rainfall", r)].

Definition within_ranges (n p k t h ph r : pyfloat) : Prop :=
  in_range 0 150 n /\ in_range 0 150 p /\ in_range 0 150 k /\
  in_range 10 40 t /\ in_range 20 90 h /\ in_range 4 9 ph /\ in_range 50 300 r.

(** The item [(k, (low, high))] of [ranges] is met by [inputs]: the key is
    there and its value lies within the range. *)
Definition field_ok (inputs : dict pyfloat) (item : string * (Z * Z)) : Prop :=
  exists x, PyDict.get inputs (fst item) = Some x /\
            in_range (fst (snd item)) (snd (snd item)) x.

(** The text of the dialog for a value out of its range. *)
Definition range_message (k : string) (low high : Z) : string :=
  k ++ " must be between " ++ PyStr.str low ++ " and " ++ PyStr.str high ++ ".".

(** The text of the result label after a prediction. *)
Definition recommendation (crop : string) (top : Q) : string :=
  "🌿 Recommended Crop: " ++ crop ++ "    ✅ Confidence: "
    ++ format_2f (mul_int top 100) ++ "%".

Definition NOT_NUMERIC : string := "Please enter numeric values for all fields.".

(** A message names a field and its range when it contains the key and
    both bounds. *)
Definition names_field_and_range (message : string) : Prop :=
  exists k low high,
    In (k, (low, high)) ranges /\
    PyStr.contains k message = true /\
    PyStr.contains (PyStr.str low) message = true /\
    PyStr.contains (PyStr.str high) message = true.

Definition is_inference (e : event) : bool :=
  match e with
  | Predict _ | PredictProba _ => true
  | _ => false
  end.

Definition is_render (e : event) : bool :=
  match e with
  | LabelConfig _ | InfoInsert _ | ChartDraw _ => true
  | _ => false
  end.

Definition is_dialog (e : event) : bool :=
  match e with
  | ShowError _ _ => true
  | _ => false
  end.

Definition is_fit (e : event) : bool :=
  match e with
  | Fit _ _ => true
  | _ => false
  end.

(** Stage of the callback an event belongs to: validation, inference,
    rendering. *)
Definition stage (e : event) : nat :=
  match e with
  | Fit _ _ | ShowError _ _ => 0
  | Predict _ | PredictProba _ => 1
  | LabelConfig _ | InfoInsert _ | ChartDraw _ => 2
  end.

Fixpoint nondecreasing (l : list nat) : bool :=
  match l with
  | a :: (b :: _) as r => (a <=? b)%nat && nondecreasing r
  | _ => true
  end.

(** A query of the classifier carries seven values, each within the range
    of its field. *)
Definition valid_query (e : event) : Prop :=
  match e with
  | Predict arr | PredictProba arr =>
      exists n p k t h ph r,
        arr = [n; p; k; t; h; ph; r] /\ within_ranges n p k t h ph r
  | _ => True
  end.

(** The keys of the form, in the order of the training columns. *)
Definition FIELD_KEYS : list string :=
  ["Nitrogen"; "Phosphorus"; "Potassium"; "Temperature"; "Humidity"; "pH"; "Rainfall"].

Definition SEVEN_HEADINGS : list string :=
  ["Cultivation"; "Water"; "Pests"; "Harvest"; "Fertilizer"; "Soil"; "Climate"].

Section Observations.

Context `{Classifier} `{PyRandom}.

(** The world [w] after a callback drew from the generator, repainted the
    right of the window and logged [evs]: the module globals other than the
    generator and the left of the window are those of [w]. *)
Definition repaint (w : world) (r : Rng) (label info : string)
    (chart : list (list (string * Q))) (evs : list event) : world :=
  {| base_info := base_info w; model := model w; le := le w; rng := r;
     entries := entries w; search_var := search_var w;
     result_label := label; info_text := info;
     chart_frame := chart; log := log w ++ evs |}.

(** The world [w] with more events in its log and nothing else changed. *)
Definition logged (w : world) (evs : list event) : world :=
  repaint w (rng w) (result_label w) (info_text w) (chart_frame w) evs.

(** The events a call adds to the log. *)
Definition emitted {A : Type} (c : M A) (w : world) : list event :=
  skipn (List.length (log w)) (log (snd (c w))).

(** What the user sees on the right of the window. *)
Definition display (w : world) : string * string * list (list (string * Q)) :=
  (result_label w, info_text w, chart_frame w).

(** A prediction request fails validation: some entry is not a number, or
    some item of [ranges] is not met. *)
Definition fails_validation (w : world) : Prop :=
  read_entries (entries w) = None \/
  exists inputs, read_entries (entries w) = Some inputs /\
                 ~ Forall (field_ok inputs) ranges.

(** The data drawn at start-up is as numpy and scikit-learn produce it:
    [n_samples] rows, crops out of the eight choices, and a permutation of
    the row positions. *)
Definition well_drawn (d : draws) : Prop :=
  List.length (X_rows d) = n_samples /\
  List.length (Crop d) = n_samples /\
  Forall (fun c => In c CROP_CHOICES) (Crop d) /\
  Permutation (permutation d) (seq 0 n_samples).

(** The crops of the training rows. *)
Definition training_crops (d : draws) : list string :=
  snd (fst (train_test_split (X_rows d) (Crop d) (permutation d))).

(** The labels the forest is fitted on. *)
Definition training_labels (d : draws) : list nat :=
  snd (fst (train_test_split (X_rows d) (snd (fit_transform (Crop d))) (permutation d))).

Definition training_rows (d : draws) : list (list Q) :=
  fst (fst (fst (train_test_split (X_rows d) (Crop d) (permutation d)))).

End Observations.

(* ------------------------------------------------------------------------- *)
(** * Facts about the built-ins *)
(* ------------------------------------------------------------------------- *)

Lemma in_range_test (low high : Z) (x : pyfloat) :
  int_le_float low x && float_le_int x high = true <-> in_range low high x.
Proof.
  unfold in_range. destruct x as [q | negative | ]; simpl.
  - rewrite andb_true_iff, !Qle_bool_iff. split.
    + intros [Hl Hh]. exists q. auto.
    + intros (q' & Heq & Hl & Hh). injection Heq as <-. auto.
  - split.
    + destruct negative; discriminate.
    + intros (q & Heq & _). discriminate.
  - split; [discriminate | intros (q & Heq & _); discriminate].
Qed.

Lemma in_range_test_false (low high : Z) (x : pyfloat) :
  int_le_float low x && float_le_int x high = false <-> ~ in_range low high x.
Proof.
  rewrite <- in_range_test. destruct (int_le_float low x && float_le_int x high).
  - split; [discriminate | intros Hn; exfalso; apply Hn; reflexivity].
  - split; [intros _; discriminate | reflexivity].
Qed.

Lemma in_range_dec (low high : Z) (x : pyfloat) :
  in_range low high x \/ ~ in_range low high x.
Proof.
  destruct (int_le_float low x && float_le_int x high) eqn:E.
  - left. now apply in_range_test.
  - right. now apply in_range_test_false.
Qed.

Lemma skipn_length_app {A : Type} (l r : list A) :
  skipn (List.length l) (l ++ r) = r.
Proof. induction l as [| a l IH]; simpl; auto. Qed.



Lemma np_max_nonempty (l : list Q) : l <> [] -> exists top, np_max l = Some top.
Proof. destruct l; [congruence | intros _; simpl; eauto]. Qed.

(** ** Case and white space *)

Module PyStrFacts.

Import PyStr.
















End PyStrFacts.

(** ** Label encoding and the train/test split *)

Module SklearnFacts.

Import Sklearn.

Lemma ascii_compare_trans (a b c : ascii) :
  Ascii.compare a b = Lt -> Ascii.compare b c = Lt -> Ascii.compare a c = Lt.
Proof.
  unfold Ascii.compare. rewrite !N.compare_lt_iff. apply N.lt_trans.
Qed.

Lemma ascii_compare_refl (a : ascii) : Ascii.compare a a = Eq.
Proof. unfold Ascii.compare. apply N.compare_refl. Qed.

Lemma string_lt_trans (a b c : string) :
  string_lt a b -> string_lt b c -> string_lt a c.
Proof.
  unfold string_lt. revert b c.
  induction a as [| x a IH]; intros [| y b] [| z c]; simpl; try discriminate; auto.
  destruct (Ascii.compare x y) eqn:Exy; try discriminate.
  - apply Ascii.compare_eq_iff in Exy. subst y.
    destruct (Ascii.compare x z) eqn:Exz; try discriminate; auto.
    intros Hab Hbc. eapply IH; eauto.
  - intros _. destruct (Ascii.compare y z) eqn:Eyz; try discriminate.
    + apply Ascii.compare_eq_iff in Eyz. subst z. now rewrite Exy.
    + now rewrite (ascii_compare_trans _ _ _ Exy Eyz).
Qed.

Lemma string_compare_refl (a : string) : String.compare a a = Eq.
Proof.
  induction a as [| x a IH]; simpl; [reflexivity |].
  now rewrite ascii_compare_refl.
Qed.

Lemma string_lt_irrefl (a : string) : ~ string_lt a a.
Proof. unfold string_lt. rewrite string_compare_refl. discriminate. Qed.

Lemma string_gt_lt (a b : string) : String.compare a b = Gt -> string_lt b a.
Proof.
  unfold string_lt. intros Hgt. rewrite String.compare_antisym, Hgt. reflexivity.
Qed.

Lemma insert_unique_In (x z : string) (l : list string) :
  In z (insert_unique x l) <-> z = x \/ In z l.
Proof.
  induction l as [| y l IH]; simpl.
  - intuition.
  - destruct (String.compare x y) eqn:E; simpl.
    + apply String.compare_eq_iff in E. subst y. intuition.
    + intuition.
    + rewrite IH. intuition.
Qed.

Lemma insert_unique_sorted (x : string) (l : list string) :
  StronglySorted string_lt l -> StronglySorted string_lt (insert_unique x l).
Proof.
  induction 1 as [| y l Hs IH Hall]; simpl.
  - repeat constructor.
  - destruct (String.compare x y) eqn:E.
    + now constructor.
    + constructor; [now constructor |]. constructor; [exact E |].
      eapply Forall_impl; [| exact Hall]. intros z Hz. eapply string_lt_trans; eauto.
    + constructor; [exact IH |]. apply Forall_forall. intros z Hz.
      apply insert_unique_In in Hz. destruct Hz as [-> | Hz].
      * now apply string_gt_lt.
      * rewrite Forall_forall in Hall. auto.
Qed.

Lemma np_unique_In (z : string) (l : list string) : In z (np_unique l) <-> In z l.
Proof.
  induction l as [| x l IH]; simpl; [reflexivity |].
  rewrite insert_unique_In, IH. intuition.
Qed.

Lemma np_unique_sorted (l : list string) : StronglySorted string_lt (np_unique l).
Proof.
  induction l as [| x l IH]; simpl; [constructor | now apply insert_unique_sorted].
Qed.

(** Two sorted lists without repetition that hold the same strings are
    equal. *)
Lemma sorted_same_elements (l1 l2 : list string) :
  StronglySorted string_lt l1 -> StronglySorted string_lt l2 ->
  (forall z, In z l1 <-> In z l2) -> l1 = l2.
Proof.
  intros H1. revert l2. induction H1 as [| a l1 Hs1 IH Ha]; intros l2 H2 Hsame.
  - destruct l2 as [| b l2]; [reflexivity |].
    exfalso. apply (proj2 (Hsame b)). now left.
  - destruct H2 as [| b l2 Hs2 Hb].
    + exfalso. apply (proj1 (Hsame a)). now left.
    + rewrite Forall_forall in Ha, Hb.
      assert (Hab : a = b).
      { destruct (proj1 (Hsame a) (or_introl eq_refl)) as [Heq | Hin]; [auto |].
        destruct (proj2 (Hsame b) (or_introl eq_refl)) as [Heq | Hin']; [auto |].
        exfalso. apply (string_lt_irrefl a).
        eapply string_lt_trans; [apply Ha, Hin' | apply Hb, Hin]. }
      subst b. f_equal. apply IH; [exact Hs2 |].
      intros z. split; intros Hz.
      * destruct (proj1 (Hsame z) (or_intror Hz)) as [Heq | Hin]; [| exact Hin].
        subst z. exfalso. exact (string_lt_irrefl a (Ha a Hz)).
      * destruct (proj2 (Hsame z) (or_intror Hz)) as [Heq | Hin]; [| exact Hin].
        subst z. exfalso. exact (string_lt_irrefl a (Hb a Hz)).
Qed.

Lemma index_of_nth_error (x : string) (l : list string) :
  In x l -> nth_error l (index_of x l) = Some x.
Proof.
  induction l as [| y l IH]; simpl; [tauto |].
  intros Hin. destruct (String.eqb_spec y x) as [-> | Hne]; [reflexivity |].
  simpl. apply IH. destruct Hin; [contradiction | assumption].
Qed.

Lemma take_map {A B : Type} (f : A -> B) (l : list A) (idx : list nat) :
  take (map f l) idx = map f (take l idx).
Proof.
  unfold take. induction idx as [| i idx IH]; simpl; [reflexivity |].
  rewrite map_app, IH, nth_error_map. now destruct (nth_error l i).
Qed.

Lemma take_In {A : Type} (x : A) (l : list A) (idx : list nat) :
  In x (take l idx) -> In x l.
Proof.
  unfold take. rewrite in_flat_map. intros (i & _ & Hx).
  destruct (nth_error l i) eqn:E; simpl in Hx; [| tauto].
  destruct Hx as [<- | []]. eapply nth_error_In; eauto.
Qed.

Lemma take_length {A : Type} (l : list A) (idx : list nat) :
  Forall (fun i => (i < List.length l)%nat) idx ->
  List.length (take l idx) = List.length idx.
Proof.
  unfold take. induction 1 as [| i idx Hi _ IH]; simpl; [reflexivity |].
  rewrite length_app, IH. apply nth_error_Some in Hi.
  destruct (nth_error l i); [reflexivity | congruence].
Qed.

End SklearnFacts.

(* ------------------------------------------------------------------------- *)
(** * Facts about the methods *)
(* ------------------------------------------------------------------------- *)

Section MethodFacts.

Context `{Classifier} `{PyRandom}.

Local Open Scope py_scope.

Lemma logged_nil (w : world) : logged w [] = w.
Proof. destruct w. unfold logged, repaint. simpl. now rewrite app_nil_r. Qed.

Lemma repaint_repaint (w : world) r l i c e r' l' i' c' e' :
  repaint (repaint w r l i c e) r' l' i' c' e' = repaint w r' l' i' c' (e ++ e')%list.
Proof. unfold repaint. simpl. now rewrite app_assoc. Qed.

Lemma repaint_logged (w : world) e r' l' i' c' e' :
  repaint (logged w e) r' l' i' c' e' = repaint w r' l' i' c' (e ++ e')%list.
Proof. apply repaint_repaint. Qed.

Lemma emitted_repaint {A : Type} (c : M A) (w : world) res r l i ch evs :
  c w = (res, repaint w r l i ch evs) -> emitted c w = evs.
Proof.
  intros E. unfold emitted. rewrite E. simpl. apply skipn_length_app.
Qed.

Lemma emitted_logged {A : Type} (c : M A) (w : world) res evs :
  c w = (res, logged w evs) -> emitted c w = evs.
Proof. apply emitted_repaint. Qed.


Lemma bind_done {A B : Type} (c : M A) (k : A -> M B) (w w' : world) (a : A) :
  c w = (Done a, w') -> bind c k w = k a w'.
Proof. intros E. unfold bind. now rewrite E. Qed.

Lemma bind_raised {A B : Type} (c : M A) (k : A -> M B) (w w' : world) (e : exn) :
  c w = (Raised e, w') -> bind c k w = (Raised e, w').
Proof. intros E. unfold bind. now rewrite E. Qed.

Lemma get_world_spec (w : world) : get_world w = (Done w, w).
Proof. reflexivity. Qed.

Lemma emit_spec (e : event) (w : world) : emit e w = (Done tt, logged w [e]).
Proof. reflexivity. Qed.

Lemma showerror_spec (title message : string) (w : world) :
  showerror title message w = (Done tt, logged w [ShowError title message]).
Proof. reflexivity. Qed.

Lemma label_config_spec (text : string) (w : world) :
  label_config text w =
    (Done tt, repaint w (rng w) text (info_text w) (chart_frame w) [LabelConfig text]).
Proof. reflexivity. Qed.

(** The loop of the validation. *)
Lemma check_ranges_cases (inputs : dict pyfloat) (rs : dict (Z * Z)) (w : world) :
  (Forall (field_ok inputs) rs /\ check_ranges inputs rs w = (Done true, w)) \/
  (exists pre k low high post x,
      rs = (pre ++ (k, (low, high)) :: post)%list /\
      Forall (field_ok inputs) pre /\
      PyDict.get inputs k = Some x /\ ~ in_range low high x /\
      check_ranges inputs rs w =
        (Done false, logged w [ShowError "Invalid Input" (range_message k low high)])) \/
  (exists pre k lh post,
      rs = (pre ++ (k, lh) :: post)%list /\
      Forall (field_ok inputs) pre /\
      PyDict.get inputs k = None /\
      check_ranges inputs rs w = (Raised (KeyError k), w)).
Proof.
  induction rs as [| [k [low high]] rest IH].
  - left. split; [constructor | reflexivity].
  - simpl. destruct (PyDict.get inputs k) as [x |] eqn:Eget.
    + destruct (int_le_float low x && float_le_int x high) eqn:Etest; simpl.
      * apply in_range_test in Etest.
        assert (Hok : field_ok inputs (k, (low, high))) by (exists x; auto).
        destruct IH as [[Hall Hrun] | [Hstop | Hkey]].
        -- left. split; [constructor; assumption | exact Hrun].
        -- right; left.
           destruct Hstop as (pre & k' & low' & high' & post & x' & -> & Hpre & Hget & Hout & Hrun).
           exists ((k, (low, high)) :: pre), k', low', high', post, x'.
           repeat split; auto.
        -- right; right.
           destruct Hkey as (pre & k' & lh & post & -> & Hpre & Hget & Hrun).
           exists ((k, (low, high)) :: pre), k', lh, post. repeat split; auto.
      * apply in_range_test_false in Etest. right; left.
        exists [], k, low, high, rest, x. repeat split; auto.
    + right; right. exists [], k, (low, high), rest. repeat split; auto.
Qed.

Lemma Forall_field_ok_split inputs pre k low high post x :
  Forall (field_ok inputs) (pre ++ (k, (low, high)) :: post)%list ->
  PyDict.get inputs k = Some x -> in_range low high x.
Proof.
  intros Hall Hget. apply Forall_app in Hall. destruct Hall as [_ Hall].
  inversion Hall as [| ? ? (x' & Hget' & Hin) _]; subst. simpl in *.
  congruence.
Qed.

Lemma check_ranges_pass (inputs : dict pyfloat) (rs : dict (Z * Z)) (w : world) :
  Forall (field_ok inputs) rs -> check_ranges inputs rs w = (Done true, w).
Proof.
  intros Hall. destruct (check_ranges_cases inputs rs w) as [[_ E] | [Hstop | Hkey]]; [exact E | |].
  - destruct Hstop as (pre & k & low & high & post & x & -> & _ & Hget & Hout & _).
    exfalso. apply Hout. eapply Forall_field_ok_split; eauto.
  - destruct Hkey as (pre & k & lh & post & -> & _ & Hget & _).
    apply Forall_app in Hall. destruct Hall as [_ Hall].
    inversion Hall as [| ? ? (x' & Hget' & _) _]; subst. simpl in *. congruence.
Qed.

Lemma check_ranges_stop inputs pre k low high post x (w : world) :
  Forall (field_ok inputs) pre ->
  PyDict.get inputs k = Some x -> ~ in_range low high x ->
  check_ranges inputs (pre ++ (k, (low, high)) :: post)%list w =
    (Done false, logged w [ShowError "Invalid Input" (range_message k low high)]).
Proof.
  intros Hpre Hget Hout. induction Hpre as [| [k' [low' high']] pre (x' & Hget' & Hin') _ IH]; simpl in *.
  - rewrite Hget. apply in_range_test_false in Hout. now rewrite Hout.
  - rewrite Hget'. apply in_range_test in Hin'. rewrite Hin'. simpl. exact IH.
Qed.

Lemma show_crop_info_spec (crop : string) (inputs : dict pyfloat) (w : world) :
  exists text r,
    _show_crop_info crop inputs w =
      (Done tt, repaint w r (result_label w) text (chart_frame w) [InfoInsert text]).
Proof.
  unfold _show_crop_info, bind, get_world, random_sample.
  destruct (sample (rng w) EXTRA_TIPS 2) as [tips r]. simpl.
  eexists. exists r. reflexivity.
Qed.

Lemma show_chart_drawn (probs : list Q) (w : world) bars :
  barh (classes_ (le w)) probs = Some bars ->
  _show_chart probs w =
    (Done tt, repaint w (rng w) (result_label w) (info_text w) [bars] [ChartDraw bars]).
Proof.
  intros E. unfold _show_chart, bind, get_world, set_chart_frame, emit. simpl.
  rewrite E. reflexivity.
Qed.

Lemma show_chart_raised (probs : list Q) (w : world) :
  barh (classes_ (le w)) probs = None ->
  exists e, _show_chart probs w =
    (Raised e, repaint w (rng w) (result_label w) (info_text w) [] []).
Proof.
  intros E. unfold _show_chart, bind, get_world, set_chart_frame, emit. simpl.
  rewrite E. eexists. unfold raise, repaint. simpl. rewrite app_nil_r. reflexivity.
Qed.

Lemma predict_crop_not_numeric (w : world) :
  read_entries (entries w) = None ->
  predict_crop w = (Done tt, logged w [ShowError "Invalid Input" NOT_NUMERIC]).
Proof.
  intros E. unfold predict_crop, bind, get_world. rewrite E. reflexivity.
Qed.

Lemma predict_crop_out_of_range (w : world) inputs pre k low high post x :
  read_entries (entries w) = Some inputs ->
  ranges = (pre ++ (k, (low, high)) :: post)%list ->
  Forall (field_ok inputs) pre ->
  PyDict.get inputs k = Some x -> ~ in_range low high x ->
  predict_crop w =
    (Done tt, logged w [ShowError "Invalid Input" (range_message k low high)]).
Proof.
  intros E Hsplit Hpre Hget Hout. unfold predict_crop, bind, get_world.
  rewrite E, Hsplit, (check_ranges_stop inputs pre k low high post x w Hpre Hget Hout).
  reflexivity.
Qed.

Lemma predict_crop_key_error (w : world) inputs pre k lh post :
  read_entries (entries w) = Some inputs ->
  ranges = (pre ++ (k, lh) :: post)%list ->
  Forall (field_ok inputs) pre ->
  PyDict.get inputs k = None ->
  predict_crop w = (Raised (KeyError k), w).
Proof.
  intros E Hsplit Hpre Hget.
  destruct (check_ranges_cases inputs ranges w) as [[Hall _] | [Hstop | Hkey]].
  - exfalso. rewrite Hsplit in Hall. apply Forall_app in Hall. destruct Hall as [_ Hall].
    inversion Hall as [| ? ? (x & Hx & _) _]; subst. simpl in Hx. congruence.
  - exfalso.
    destruct Hstop as (pre' & k' & low' & high' & post' & x' & Hs' & Hpre' & Hget' & Hout' & _).
    clear - Hsplit Hs' Hpre Hpre' Hget Hget' Hout'. rewrite Hsplit in Hs'. clear Hsplit.
    revert pre' Hs' Hpre'. induction Hpre as [| a pre (x & Hx & Hin) _ IH]; intros pre' Hs' Hpre'.
    + destruct pre' as [| b pre']; simpl in Hs'.
      * injection Hs' as -> _ _. congruence.
      * injection Hs' as <- _. inversion Hpre' as [| ? ? (y & Hy & _) _]; subst.
        simpl in Hy. congruence.
    + destruct pre' as [| b pre']; simpl in Hs'.
      * injection Hs' as -> _. simpl in *.
        assert (x = x') by congruence. subst. contradiction.
      * injection Hs' as _ Hs'. inversion Hpre'; subst. eapply IH; eauto.
  - destruct Hkey as (pre' & k' & lh' & post' & Hs' & Hpre' & Hget' & Hrun).
    unfold predict_crop, bind, get_world. rewrite E, Hrun.
    assert (k' = k); [| now subst].
    clear - Hsplit Hs' Hpre Hpre' Hget Hget'. rewrite Hsplit in Hs'. clear Hsplit.
    revert pre' Hs' Hpre'. induction Hpre as [| a pre (x & Hx & Hin) _ IH]; intros pre' Hs' Hpre'.
    + destruct pre' as [| b pre']; simpl in Hs'.
      * now injection Hs' as -> _ _.
      * injection Hs' as <- _. inversion Hpre' as [| ? ? (y & Hy & _) _]; subst.
        simpl in Hy. congruence.
    + destruct pre' as [| b pre']; simpl in Hs'.
      * injection Hs' as -> _. simpl in *. congruence.
      * injection Hs' as _ Hs'. inversion Hpre'; subst. eapply IH; eauto.
Qed.

Lemma predict_crop_accepted (w : world) inputs :
  read_entries (entries w) = Some inputs ->
  Forall (field_ok inputs) ranges ->
  let arr := PyDict.values inputs in
  let probs := predict_proba (model w) arr in
  match inverse_transform (le w) (predict (model w) arr), np_max probs with
  | None, _ => exists e, predict_crop w = (Raised e, logged w [Predict arr])
  | Some crop, None =>
      exists e, predict_crop w = (Raised e, logged w [Predict arr; PredictProba arr])
  | Some crop, Some top =>
      let label := recommendation crop top in
      exists text r,
        match barh (classes_ (le w)) probs with
        | Some bars =>
            predict_crop w =
              (Done tt, repaint w r label text [bars]
                 [Predict arr; PredictProba arr; LabelConfig label; InfoInsert text;
                  ChartDraw bars])
        | None =>
            exists e, predict_crop w =
              (Raised e, repaint w r label text []
                 [Predict arr; PredictProba arr; LabelConfig label; InfoInsert text])
        end
  end.
Proof.
  intros E Hall arr probs.
  assert (Hstart : predict_crop w =
            bind (emit (Predict arr))
              (fun _ =>
                 match inverse_transform (le w) (predict (model w) arr) with
                 | Some pred_crop =>
                     bind (emit (PredictProba arr))
                       (fun _ =>
                          match np_max probs with
                          | Some top =>
                              bind (label_config (recommendation pred_crop top))
                                (fun _ => bind (_show_crop_info pred_crop inputs)
                                            (fun _ => _show_chart probs))
                          | None => raise (ValueError "zero-size array to reduction operation maximum which has no identity")
                          end)
                 | None => raise (ValueError "y contains previously unseen labels")
                 end) w).
  { unfold predict_crop. rewrite (bind_done _ _ w w w (get_world_spec w)).
    rewrite E. rewrite (bind_done _ _ w w true (check_ranges_pass inputs ranges w Hall)).
    reflexivity. }
  rewrite (bind_done _ _ _ _ tt (emit_spec (Predict arr) w)) in Hstart.
  destruct (inverse_transform (le w) (predict (model w) arr)) as [crop |] eqn:Einv.
  - rewrite (bind_done _ _ _ _ tt (emit_spec (PredictProba arr) _)) in Hstart.
    destruct (np_max probs) as [top |] eqn:Emax.
    + cbv zeta. set (label := recommendation crop top) in *.
      rewrite (bind_done _ _ _ _ tt (label_config_spec label _)) in Hstart.
      unfold logged in Hstart. rewrite !repaint_repaint in Hstart.
      cbn [rng result_label info_text chart_frame repaint app] in Hstart.
      match type of Hstart with
      | _ = bind (_show_crop_info crop inputs) _ ?w1 =>
          destruct (show_crop_info_spec crop inputs w1) as (text & r & Einfo);
          rewrite (bind_done _ _ _ _ tt Einfo) in Hstart
      end.
      rewrite repaint_repaint in Hstart.
      cbn [rng result_label info_text chart_frame repaint app] in Hstart.
      exists text, r.
      destruct (barh (classes_ (le w)) probs) as [bars |] eqn:Ebar.
      * rewrite Hstart, show_chart_drawn with (bars := bars) by exact Ebar.
        rewrite repaint_repaint. reflexivity.
      * match type of Hstart with
        | _ = _show_chart probs ?w2 =>
            destruct (show_chart_raised probs w2 Ebar) as (e & Echart)
        end.
        exists e. rewrite Hstart, Echart, repaint_repaint. reflexivity.
    + eexists. rewrite Hstart. unfold raise, logged. rewrite repaint_repaint. reflexivity.
  - eexists. rewrite Hstart. unfold raise. reflexivity.
Qed.

Lemma search_crop_not_found (w : world) :
  let crop := PyStr.strip (PyStr.capitalize (search_var w)) in
  PyDict.mem crop (base_info w) = false ->
  search_crop w =
    (Done tt, logged w [ShowError "Not Found" ("Crop '" ++ crop ++ "' not found.")]).
Proof.
  intros crop E. unfold search_crop. rewrite (bind_done _ _ w w w (get_world_spec w)).
  fold crop. rewrite E. reflexivity.
Qed.

Lemma search_crop_found (w : world) :
  let crop := PyStr.strip (PyStr.capitalize (search_var w)) in
  let label := "🌾 Information for " ++ crop ++ ":" in
  PyDict.mem crop (base_info w) = true ->
  exists text r,
    search_crop w =
      (Done tt, repaint w r label text (chart_frame w) [LabelConfig label; InfoInsert text]).
Proof.
  intros crop label E.
  assert (Hstart : search_crop w =
            bind (label_config label) (fun _ => _show_crop_info crop []) w).
  { unfold search_crop. rewrite (bind_done _ _ w w w (get_world_spec w)).
    fold crop. rewrite E. reflexivity. }
  rewrite (bind_done _ _ _ _ tt (label_config_spec label _)) in Hstart.
  match type of Hstart with
  | _ = _show_crop_info crop [] ?w1 =>
      destruct (show_crop_info_spec crop [] w1) as (text & r & Einfo)
  end.
  exists text, r. rewrite Hstart, Einfo, repaint_repaint. reflexivity.
Qed.

End MethodFacts.

(** ** What no callback touches *)

Section Frame.

Context `{Classifier} `{PyRandom}.

Lemma predict_crop_frame (w : world) :
  exists res r l i c evs,
    predict_crop w = (res, repaint w r l i c evs) /\
    existsb is_fit evs = false /\
    nondecreasing (map stage evs) = true.
Proof.
  destruct (read_entries (entries w)) as [inputs |] eqn:E.
  - destruct (check_ranges_cases inputs ranges w) as [[Hall _] | [Hstop | Hkey]].
    + pose proof (predict_crop_accepted w inputs E Hall) as Hrun. cbv zeta in Hrun.
      destruct (inverse_transform (le w) (predict (model w) (values inputs))) as [crop |].
      * destruct (np_max (predict_proba (model w) (values inputs))) as [top |].
        -- destruct Hrun as (text & r & Hrun).
           destruct (barh (classes_ (le w)) (predict_proba (model w) (values inputs))) as [bars |].
           ++ do 6 eexists. split; [exact Hrun | split; reflexivity].
           ++ destruct Hrun as (e & Hrun).
              do 6 eexists. split; [exact Hrun | split; reflexivity].
        -- destruct Hrun as (e & Hrun).
           do 6 eexists. split; [exact Hrun | split; reflexivity].
      * destruct Hrun as (e & Hrun).
        do 6 eexists. split; [exact Hrun | split; reflexivity].
    + destruct Hstop as (pre & k & low & high & post & x & Hs & Hpre & Hget & Hout & _).
      do 6 eexists.
      split; [exact (predict_crop_out_of_range w inputs pre k low high post x E Hs Hpre Hget Hout) |].
      split; reflexivity.
    + destruct Hkey as (pre & k & lh & post & Hs & Hpre & Hget & _).
      exists (Raised (KeyError k)), (rng w), (result_label w), (info_text w), (chart_frame w), [].
      split; [| split; reflexivity].
      rewrite (predict_crop_key_error w inputs pre k lh post E Hs Hpre Hget).
      now rewrite <- (logged_nil w) at 1.
  - do 6 eexists.
    split; [exact (predict_crop_not_numeric w E) | split; reflexivity].
Qed.

Lemma search_crop_frame (w : world) :
  exists res r l i c evs,
    search_crop w = (res, repaint w r l i c evs) /\ existsb is_fit evs = false.
Proof.
  destruct (mem (PyStr.strip (PyStr.capitalize (search_var w))) (base_info w)) eqn:E.
  - destruct (search_crop_found w E) as (text & r & Hrun).
    do 6 eexists. split; [exact Hrun | reflexivity].
  - do 6 eexists. split; [exact (search_crop_not_found w E) | reflexivity].
Qed.

Lemma show_crop_info_frame (crop : string) (inputs : dict pyfloat) (w : world) :
  exists res r l i c evs,
    _show_crop_info crop inputs w = (res, repaint w r l i c evs) /\
    existsb is_fit evs = false.
Proof.
  destruct (show_crop_info_spec crop inputs w) as (text & r & Hrun).
  do 6 eexists. split; [exact Hrun | reflexivity].
Qed.

Lemma show_chart_frame (probs : list Q) (w : world) :
  exists res r l i c evs,
    _show_chart probs w = (res, repaint w r l i c evs) /\ existsb is_fit evs = false.
Proof.
  destruct (barh (classes_ (le w)) probs) as [bars |] eqn:E.
  - do 6 eexists. split; [exact (show_chart_drawn probs w bars E) | reflexivity].
  - destruct (show_chart_raised probs w E) as (e & Hrun).
    do 6 eexists. split; [exact Hrun | reflexivity].
Qed.

Lemma set_keeps_keys {V : Type} (d : dict V) (k : string) (v : V) :
  mem k d = true -> keys (PyDict.set d k v) = keys d.
Proof.
  unfold mem, keys. induction d as [| [k' v'] d IH]; simpl; [discriminate |].
  destruct (String.eqb_spec k' k) as [-> | Hne]; simpl; [reflexivity |].
  intros Hm. now rewrite IH.
Qed.

(** A step of the event loop keeps the knowledge table, the forest, the
    encoder and the keys of the form, and only adds events other than a
    fit to the log. *)
Lemma step_frame (w : world) (a : action) :
  base_info (step w a) = base_info w /\
  model (step w a) = model w /\
  le (step w a) = le w /\
  keys (entries (step w a)) = keys (entries w) /\
  exists evs, log (step w a) = (log w ++ evs)%list /\ existsb is_fit evs = false.
Proof.
  assert (Hrepaint : forall res r l i c evs,
            existsb is_fit evs = false ->
            let w' := snd (res : result unit, repaint w r l i c evs) in
            base_info w' = base_info w /\ model w' = model w /\ le w' = le w /\
            keys (entries w') = keys (entries w) /\
            exists evs', log w' = (log w ++ evs')%list /\ existsb is_fit evs' = false).
  { intros res r l i c evs Hfit. simpl. repeat split; eauto. }
  assert (Hsame : forall w', base_info w' = base_info w -> model w' = model w ->
            le w' = le w -> keys (entries w') = keys (entries w) -> log w' = log w ->
            base_info w' = base_info w /\ model w' = model w /\ le w' = le w /\
            keys (entries w') = keys (entries w) /\
            exists evs', log w' = (log w ++ evs')%list /\ existsb is_fit evs' = false).
  { intros w' ? ? ? ? Hlog. repeat split; auto. exists []. now rewrite app_nil_r. }
  destruct a as [key text | text | | | crop inputs | probs]; simpl.
  - destruct (mem key (entries w)) eqn:Em.
    + apply Hsame; simpl; auto. now apply set_keeps_keys.
    + apply Hsame; auto.
  - apply Hsame; reflexivity.
  - destruct (predict_crop_frame w) as (res & r & l & i & c & evs & -> & Hfit & _). now apply Hrepaint.
  - destruct (search_crop_frame w) as (res & r & l & i & c & evs & -> & Hfit). now apply Hrepaint.
  - destruct (show_crop_info_frame crop inputs w) as (res & r & l & i & c & evs & -> & Hfit).
    now apply Hrepaint.
  - destruct (show_chart_frame probs w) as (res & r & l & i & c & evs & -> & Hfit).
    now apply Hrepaint.
Qed.

Lemma mainloop_frame (acts : list action) (w : world) :
  base_info (mainloop acts w) = base_info w /\
  model (mainloop acts w) = model w /\
  le (mainloop acts w) = le w /\
  keys (entries (mainloop acts w)) = keys (entries w) /\
  exists evs, log (mainloop acts w) = (log w ++ evs)%list /\ existsb is_fit evs = false.
Proof.
  revert w. induction acts as [| a acts IH]; intros w; simpl.
  - repeat split; auto. exists []. now rewrite app_nil_r.
  - destruct (IH (step w a)) as (Hb & Hm & Hl & Hk & evs2 & Hlog2 & Hfit2).
    destruct (step_frame w a) as (Hb1 & Hm1 & Hl1 & Hk1 & evs1 & Hlog1 & Hfit1).
    unfold mainloop in *.
    repeat split; try congruence.
    exists (evs1 ++ evs2)%list. split.
    + now rewrite Hlog2, Hlog1, app_assoc.
    + now rewrite existsb_app, Hfit1, Hfit2.
Qed.

(** The process right after start-up. *)
Lemma run_start (d : draws) (r : Rng) :
  let w := run d r [] in
  base_info w = BASE_INFO /\
  model w = fit (training_rows d) (training_labels d) /\
  le w = {| classes_ := np_unique (Crop d) |} /\
  keys (entries w) = keys ranges /\
  log w = [Fit (training_rows d) (training_labels d)].
Proof. repeat split. Qed.

(** Every state the process reaches. *)
Lemma run_frame (d : draws) (r : Rng) (acts : list action) :
  let w := run d r acts in
  base_info w = BASE_INFO /\
  model w = fit (training_rows d) (training_labels d) /\
  le w = {| classes_ := np_unique (Crop d) |} /\
  keys (entries w) = keys ranges /\
  exists evs, log w = Fit (training_rows d) (training_labels d) :: evs /\
              existsb is_fit evs = false.
Proof.
  destruct (run_start d r) as (Hb & Hm & Hl & Hk & Hlog).
  destruct (mainloop_frame acts (run d r [])) as (Hb' & Hm' & Hl' & Hk' & evs & Hlog' & Hfit).
  change (mainloop acts (run d r [])) with (run d r acts) in *.
  cbv zeta. repeat split; try congruence.
  exists evs. split; [| exact Hfit]. now rewrite Hlog', Hlog.
Qed.

End Frame.

(* ------------------------------------------------------------------------- *)
(** * Input validation *)
(* ------------------------------------------------------------------------- *)

Section Validation.

Context `{Classifier} `{PyRandom}.

Lemma field_ok_measurement (n p k t h ph r : pyfloat) :
  Forall (field_ok (measurement n p k t h ph r)) ranges <-> within_ranges n p k t h ph r.
Proof.
  unfold within_ranges, ranges. split.
  - intros Hall.
    repeat match goal with
           | Hf : Forall _ (_ :: _) |- _ =>
               let x := fresh "x" in let Hx := fresh "Hx" in let Hin := fresh "Hin" in
               inversion Hf as [| ? ? (x & Hx & Hin) ?]; subst; clear Hf;
               simpl in Hx; injection Hx as <-; simpl in Hin
           end.
    tauto.
  - intros (Hn & Hp & Hk & Ht & Hh & Hph & Hr).
    repeat constructor; eexists; (split; [reflexivity | assumption]).
Qed.

Lemma in_ranges_names (key : string) (low high : Z) :
  In (key, (low, high)) ranges ->
  names_field_and_range (range_message key low high) /\
  String.prefix key (range_message key low high) = true /\
  forall other, In other (keys ranges) -> other <> key ->
                PyStr.contains other (range_message key low high) = false.
Proof.
  intros Hin. split; [| split].
  - exists key, low, high. split; [exact Hin |].
    simpl in Hin.
    repeat (destruct Hin as [[= <- <- <-] | Hin]; [vm_compute; auto |]).
    contradiction.
  - simpl in Hin.
    repeat (destruct Hin as [[= <- <- <-] | Hin]; [reflexivity |]).
    contradiction.
  - intros other Hother Hne. simpl in Hin, Hother.
    repeat (destruct Hin as [[= <- <- <-] | Hin];
            [ repeat (destruct Hother as [<- | Hother];
                      [first [reflexivity | congruence] |]); contradiction |]).
    contradiction.
Qed.

Lemma not_within_fails (w : world) (n p k t h ph r : pyfloat) :
  read_entries (entries w) = Some (measurement n p k t h ph r) ->
  ~ within_ranges n p k t h ph r -> fails_validation w.
Proof.
  intros E Hout. right. exists (measurement n p k t h ph r).
  split; [exact E |]. now rewrite field_ok_measurement.
Qed.

(** A measurement has all seven keys: the loop never raises on it. *)
Lemma measurement_cases (n p k t h ph r : pyfloat) (w : world) :
  let m := measurement n p k t h ph r in
  (within_ranges n p k t h ph r /\ check_ranges m ranges w = (Done true, w)) \/
  (~ within_ranges n p k t h ph r /\
   exists pre key low high post x,
     ranges = (pre ++ (key, (low, high)) :: post)%list /\
     Forall (field_ok m) pre /\ PyDict.get m key = Some x /\ ~ in_range low high x /\
     check_ranges m ranges w =
       (Done false, logged w [ShowError "Invalid Input" (range_message key low high)])).
Proof.
  intros m. destruct (check_ranges_cases m ranges w) as [[Hall E] | [Hstop | Hkey]].
  - left. split; [now apply field_ok_measurement | exact E].
  - right. destruct Hstop as (pre & key & low & high & post & x & Hs & Hpre & Hget & Hout & E).
    split.
    + intros Hin. apply field_ok_measurement in Hin. fold m in Hin.
      rewrite Hs in Hin. apply Hout. eapply Forall_field_ok_split; eauto.
    + exists pre, key, low, high, post, x. auto.
  - exfalso. destruct Hkey as (pre & key & lh & post & Hs & _ & Hget & _).
    assert (Hin : In key (keys ranges)).
    { rewrite Hs. unfold keys. rewrite map_app. apply in_or_app. right. now left. }
    simpl in Hin. unfold m in Hget.
    repeat (destruct Hin as [<- | Hin]; [discriminate Hget |]). contradiction.
Qed.

End Validation.

Section ValidationProperties.

Context `{Classifier} `{PyRandom}.

(** C1.  For every measurement record of seven values read from the form,
    the validation loop of [predict_crop] runs to its end exactly when each
    value lies within its inclusive range (Nitrogen, Phosphorus and Potassium
    0 to 150, Temperature 10 to 40, Humidity 20 to 90, pH 4 to 9, Rainfall 50
    to 300); the classifier is queried exactly for those records; a value
    equal to either bound of its range is within the range, and a record that
    is accepted stays accepted with a temperature of 10 or of 40. *)
Theorem C1_validation_accepts_exactly_in_range
    (w : world) (n p k t h ph r : pyfloat) :
  read_entries (entries w) = Some (measurement n p k t h ph r) ->
  (fst (check_ranges (measurement n p k t h ph r) ranges w) = Done true
     <-> within_ranges n p k t h ph r) /\
  (existsb is_inference (emitted predict_crop w) = true
     <-> within_ranges n p k t h ph r) /\
  (forall key low high, In (key, (low, high)) ranges ->
     in_range low high (Finite (inject_Z low)) /\
     in_range low high (Finite (inject_Z high))) /\
  (forall t', t' = Finite 10 \/ t' = Finite 40 ->
     within_ranges n p k t h ph r ->
     fst (check_ranges (measurement n p k t' h ph r) ranges w) = Done true).
Proof.
  intros E. pose (m := measurement n p k t h ph r).
  split; [| split; [| split]].
  - destruct (measurement_cases n p k t h ph r w) as [[Hin Hrun] | [Hout Hstop]].
    + rewrite Hrun. simpl. tauto.
    + destruct Hstop as (pre & key & low & high & post & x & _ & _ & _ & _ & Hrun).
      rewrite Hrun. simpl. split; [discriminate | contradiction].
  - destruct (measurement_cases n p k t h ph r w) as [[Hin _] | [Hout Hstop]].
    + split; [auto | intros _].
      pose proof (predict_crop_accepted w m E (proj2 (field_ok_measurement n p k t h ph r) Hin)) as Hrun.
      cbv zeta in Hrun. fold m in Hrun.
      destruct (inverse_transform (le w) (predict (model w) (values m))) as [crop |].
      * destruct (np_max (predict_proba (model w) (values m))) as [top |].
        -- destruct Hrun as (text & r' & Hrun).
           destruct (barh (classes_ (le w)) (predict_proba (model w) (values m))) as [bars |].
           ++ now rewrite (emitted_repaint _ _ _ _ _ _ _ _ Hrun).
           ++ destruct Hrun as (e & Hrun). now rewrite (emitted_repaint _ _ _ _ _ _ _ _ Hrun).
        -- destruct Hrun as (e & Hrun). now rewrite (emitted_logged _ _ _ _ Hrun).
      * destruct Hrun as (e & Hrun). now rewrite (emitted_logged _ _ _ _ Hrun).
    + destruct Hstop as (pre & key & low & high & post & x & Hs & Hpre & Hget & Hx & _).
      rewrite (emitted_logged _ _ _ _
                 (predict_crop_out_of_range w m pre key low high post x E Hs Hpre Hget Hx)).
      simpl. split; [discriminate | contradiction].
  - intros key low high Hin. simpl in Hin.
    repeat (destruct Hin as [[= <- <- <-] | Hin];
            [split; eexists; (split; [reflexivity | split; vm_compute; discriminate]) |]).
    contradiction.
  - intros t' Ht' (Hn & Hp & Hk & _ & Hh & Hph & Hr).
    rewrite check_ranges_pass; [reflexivity |].
    apply field_ok_measurement. repeat split; try assumption.
    destruct Ht' as [-> | ->];
      (eexists; split; [reflexivity | split; vm_compute; discriminate]).
Qed.



(** C10.  When the entries are seven numbers and the field [key] is the
    first, in the order Nitrogen, Phosphorus, Potassium, Temperature,
    Humidity, pH, Rainfall, whose value is out of its range, the request
    shows exactly one dialog; its message starts with [key] and contains no
    other field name, whatever the later values are. *)
Theorem C10_dialog_names_first_offending_field
    (w : world) (n p k t h ph r : pyfloat)
    (pre post : dict (Z * Z)) (key : string) (low high : Z) (x : pyfloat) :
  read_entries (entries w) = Some (measurement n p k t h ph r) ->
  ranges = (pre ++ (key, (low, high)) :: post)%list ->
  Forall (field_ok (measurement n p k t h ph r)) pre ->
  PyDict.get (measurement n p k t h ph r) key = Some x ->
  ~ in_range low high x ->
  emitted predict_crop w = [ShowError "Invalid Input" (range_message key low high)] /\
  String.prefix key (range_message key low high) = true /\
  (forall other, In other (keys ranges) -> other <> key ->
     PyStr.contains other (range_message key low high) = false).
Proof.
  intros E Hs Hpre Hget Hx.
  pose proof (predict_crop_out_of_range w _ pre key low high post x E Hs Hpre Hget Hx) as Hrun.
  assert (Hin : In (key, (low, high)) ranges) by (rewrite Hs; apply in_elt).
  split; [exact (emitted_logged _ _ _ _ Hrun) |].
  apply in_ranges_names. exact Hin.
Qed.

End ValidationProperties.

(** ** Validation on the sample form *)

Ltac in_range_now :=
  eexists; split; [reflexivity | split; vm_compute; discriminate].

(** C1 on the sample form: a record with the temperature at its lower bound is
    accepted and reaches the classifier. *)
Lemma C1_accepts_boundary_temperature :
  let w := Sample.filled "90" "42" "43" "10" "82" "6.5" "203" in
  read_entries (entries w) =
    Some (measurement (Finite 90) (Finite 42) (Finite 43) (Finite 10) (Finite 82)
            (Finite (13 # 2)) (Finite 203)) /\
  existsb is_inference (emitted predict_crop w) = true.
Proof.
  intros w.
  assert (E : read_entries (entries w) =
              Some (measurement (Finite 90) (Finite 42) (Finite 43) (Finite 10) (Finite 82)
                      (Finite (13 # 2)) (Finite 203))) by (vm_compute; reflexivity).
  split; [exact E |].
  apply (proj1 (proj2 (C1_validation_accepts_exactly_in_range w _ _ _ _ _ _ _ E))).
  repeat split; in_range_now.
Defined.




(** C10 on the sample form: temperature and rainfall are both out of range, and
    the dialog is about the temperature. *)
Lemma C10_temperature_before_rainfall :
  let w := Sample.filled "90" "42" "43" "41" "82" "6.5" "400" in
  emitted predict_crop w = [ShowError "Invalid Input" (range_message "Temperature" 10 40)] /\
  String.prefix "Temperature" (range_message "Temperature" 10 40) = true /\
  (forall other, In other (keys ranges) -> other <> "Temperature" ->
     PyStr.contains other (range_message "Temperature" 10 40) = false).
Proof.
  intros w.
  apply (C10_dialog_names_first_offending_field w
           (Finite 90) (Finite 42) (Finite 43) (Finite 41) (Finite 82) (Finite (13 # 2))
           (Finite 400)
           [("Nitrogen", (0, 150)); ("Phosphorus", (0, 150)); ("Potassium", (0, 150))]
           [("Humidity", (20, 90)); ("pH", (4, 9)); ("Rainfall", (50, 300))]
           "Temperature" 10 40 (Finite 41)).
  - vm_compute. reflexivity.
  - reflexivity.
  - repeat constructor; eexists; (split; [reflexivity | in_range_now]).
  - reflexivity.
  - intros (q & [= <-] & _ & Hhigh). vm_compute in Hhigh. apply Hhigh. reflexivity.
Defined.

(* ------------------------------------------------------------------------- *)
(** * The knowledge table *)
(* ------------------------------------------------------------------------- *)

Lemma prefix_app (x a b : string) :
  String.prefix x a = true -> String.prefix x (a ++ b) = true.
Proof.
  revert a. induction x as [| c x IH]; intros a; [intros _; now destruct (a ++ b) |].
  destruct a as [| c' a]; simpl; [discriminate |].
  destruct (ascii_dec c c'); [apply IH | discriminate].
Qed.

Lemma contains_app (x a b : string) :
  PyStr.contains x a = true -> PyStr.contains x (a ++ b) = true.
Proof.
  induction a as [| c a IH]; simpl.
  - rewrite orb_false_r. intros Hp. destruct x; [| discriminate].
    destruct b; reflexivity.
  - rewrite !orb_true_iff. intros [Hp | Hc].
    + left. exact (prefix_app x (String c a) b Hp).
    + right. auto.
Qed.

Lemma append_assoc (a b c : string) : (a ++ b) ++ c = a ++ (b ++ c).
Proof. induction a as [| x a IH]; simpl; [reflexivity | now rewrite IH]. Qed.

Lemma fold_left_append {A : Type} (f : A -> string) (l : list A) (acc : string) :
  fold_left (fun a t => a ++ f t) l acc = acc ++ fold_left (fun a t => a ++ f t) l "".
Proof.
  revert acc. induction l as [| t l IH]; intros acc; simpl.
  - induction acc as [| c acc IHacc]; simpl; [reflexivity | now rewrite <- IHacc].
  - rewrite IH, (IH (f t)). now rewrite append_assoc.
Qed.

Section KnowledgeTable.

Context `{Classifier} `{PyRandom}.

(** The guide text written by [_show_crop_info] starts with the title and
    the lines of the table entry; the tips follow. *)
Lemma show_crop_info_text (crop : string) (inputs : dict pyfloat) (w : world) :
  exists tips_text,
    info_text (snd (_show_crop_info crop inputs w)) =
      fold_left (fun acc '(heading, text) =>
                   acc ++ "🔹 " ++ heading ++ ": " ++ text ++ PyStr.nl ++ PyStr.nl)
        (get_default (base_info w) crop [])
        ("🌾 " ++ crop ++ " Cultivation Guide" ++ PyStr.nl ++ PyStr.repeat "-" 56
           ++ PyStr.nl ++ PyStr.nl)
      ++ tips_text.
Proof.
  unfold _show_crop_info, bind, get_world, random_sample.
  destruct (sample (rng w) EXTRA_TIPS 2) as [tips r]. simpl.
  rewrite (fold_left_append (fun t => "   • " ++ t ++ PyStr.nl)), append_assoc.
  eexists. reflexivity.
Qed.

(** C4.  The knowledge table has exactly the eight crop names as keys, and
    for each of them the lookup made by the guide gives seven fields, named
    Cultivation, Water, Pests, Harvest, Fertilizer, Soil and Climate in this
    order, each with a text that is not empty; the guide written for the crop
    shows every one of these texts under its heading. *)
Theorem C4_knowledge_table_complete (crop : string) :
  In crop CROP_CHOICES ->
  keys BASE_INFO = CROP_CHOICES /\
  exists fields,
    PyDict.get BASE_INFO crop = Some fields /\
    get_default BASE_INFO crop [] = fields /\
    keys fields = SEVEN_HEADINGS /\
    Forall (fun text => text <> "") (values fields) /\
    forall (w : world) (inputs : dict pyfloat) (heading text : string),
      base_info w = BASE_INFO ->
      In (heading, text) fields ->
      PyStr.contains ("🔹 " ++ heading ++ ": " ++ text)
        (info_text (snd (_show_crop_info crop inputs w))) = true.
Proof.
  intros Hin. split; [reflexivity |].
  exists (get_default BASE_INFO crop []).
  simpl in Hin.
  repeat (destruct Hin as [<- | Hin];
          [ split; [reflexivity |]; split; [reflexivity |]; split; [reflexivity |];
            split; [repeat constructor; discriminate |];
            intros w inputs heading text Hw Hf;
            match goal with
            | |- context [ _show_crop_info ?c inputs w ] =>
                destruct (show_crop_info_text c inputs w) as (tips_text & ->)
            end;
            rewrite Hw; apply contains_app;
            vm_compute in Hf;
            repeat (destruct Hf as [[= <- <-] | Hf]; [vm_compute; reflexivity |]);
            contradiction
          | ]).
  contradiction.
Qed.

(** C5.  The knowledge table is the literal of the module body when the
    process starts and after any sequence of user actions and method calls;
    none of [predict_crop], [search_crop], [_show_crop_info] and
    [_show_chart] changes it, from any state and with any arguments. *)
Theorem C5_knowledge_table_never_changes (d : draws) (r : Rng) (acts : list action) :
  base_info (run d r []) = BASE_INFO /\
  base_info (run d r acts) = BASE_INFO /\
  (forall w, base_info (snd (predict_crop w)) = base_info w) /\
  (forall w, base_info (snd (search_crop w)) = base_info w) /\
  (forall w crop inputs, base_info (snd (_show_crop_info crop inputs w)) = base_info w) /\
  (forall w probs, base_info (snd (_show_chart probs w)) = base_info w).
Proof.
  split; [reflexivity |]. split; [apply (run_frame d r acts) |].
  split; [| split; [| split]].
  - intros w. apply (step_frame w ClickPredict).
  - intros w. apply (step_frame w ClickSearch).
  - intros w crop inputs. apply (step_frame w (CallShowCropInfo crop inputs)).
  - intros w probs. apply (step_frame w (CallShowChart probs)).
Qed.

End KnowledgeTable.

(** C4 for rice. *)
Lemma C4_rice_is_complete :
  keys BASE_INFO = CROP_CHOICES /\
  exists fields,
    PyDict.get BASE_INFO "Rice" = Some fields /\
    get_default BASE_INFO "Rice" [] = fields /\
    keys fields = SEVEN_HEADINGS /\
    Forall (fun text => text <> "") (values fields) /\
    forall (w : @world Sample.forest Sample.first_k) (inputs : dict pyfloat)
           (heading text : string),
      base_info w = BASE_INFO ->
      In (heading, text) fields ->
      PyStr.contains ("🔹 " ++ heading ++ ": " ++ text)
        (info_text (snd (_show_crop_info "Rice" inputs w))) = true.
Proof.
  apply (@C4_knowledge_table_complete Sample.forest Sample.first_k "Rice").
  simpl. auto 10.
Defined.

(* ------------------------------------------------------------------------- *)
(** * Searching a crop by name *)
(* ------------------------------------------------------------------------- *)




Section Search.

Context `{Classifier} `{PyRandom}.


End Search.


(** The example of C9: a space before rice and the search fails. *)
Lemma C9_rice_after_a_space_is_not_found :
  let w := mainloop [TypeSearch " rice"] (Sample.filled "" "" "" "" "" "" "") in
  emitted search_crop w = [ShowError "Not Found" "Crop 'rice' not found."].
Proof. vm_compute. reflexivity. Qed.

(* ------------------------------------------------------------------------- *)
(** * The classifier *)
(* ------------------------------------------------------------------------- *)

Lemma firstn_In {A : Type} (x : A) (n : nat) (l : list A) : In x (firstn n l) -> In x l.
Proof. intros Hin. rewrite <- (firstn_skipn n l). apply in_or_app. now left. Qed.

Lemma skipn_In {A : Type} (x : A) (n : nat) (l : list A) : In x (skipn n l) -> In x l.
Proof. intros Hin. rewrite <- (firstn_skipn n l). apply in_or_app. now right. Qed.

Lemma filter_none {A : Type} (f : A -> bool) (l : list A) :
  existsb f l = false -> filter f l = [].
Proof.
  induction l as [| a l IH]; simpl; [reflexivity |].
  rewrite orb_false_iff. intros [Ha Hl]. rewrite Ha. auto.
Qed.

Lemma n_test_of_n_samples : n_test n_samples = 60%nat.
Proof. vm_compute. reflexivity. Qed.

Lemma training_labels_encode (d : draws) :
  training_labels d =
    map (fun c => index_of c (np_unique (Crop d))) (training_crops d).
Proof.
  unfold training_labels, training_crops, train_test_split, fit_transform. simpl.
  apply SklearnFacts.take_map.
Qed.

Lemma training_crops_drawn (d : draws) : incl (training_crops d) (Crop d).
Proof.
  unfold training_crops, train_test_split. simpl. intros c Hc.
  eapply SklearnFacts.take_In; eauto.
Qed.

Lemma training_rows_drawn (d : draws) : incl (training_rows d) (X_rows d).
Proof.
  unfold training_rows, train_test_split. simpl. intros c Hc.
  eapply SklearnFacts.take_In; eauto.
Qed.

(** Of the 300 rows, 240 are training rows. *)
Lemma training_crops_length (d : draws) :
  well_drawn d -> List.length (training_crops d) = 240%nat.
Proof.
  intros (HX & HC & _ & Hperm).
  unfold training_crops, train_test_split. simpl.
  rewrite HX, n_test_of_n_samples.
  assert (Hlen : List.length (permutation d) = 300%nat).
  { rewrite (Permutation_length Hperm). apply length_seq. }
  rewrite SklearnFacts.take_length.
  - rewrite length_firstn, length_skipn, Hlen. reflexivity.
  - apply Forall_forall. intros i Hi.
    apply firstn_In, skipn_In in Hi.
    apply (Permutation_in _ Hperm), in_seq in Hi. rewrite HC. apply Hi.
Qed.

Lemma training_labels_nonempty (d : draws) : well_drawn d -> training_labels d <> [].
Proof.
  intros Hd E. apply (f_equal (@List.length nat)) in E.
  rewrite training_labels_encode, length_map, (training_crops_length d Hd) in E.
  discriminate.
Qed.

(** A training label decodes to the crop it encodes, one of the eight. *)
Lemma training_label_decodes (d : draws) (y : nat) :
  well_drawn d -> In y (training_labels d) ->
  exists crop,
    In crop (training_crops d) /\ In crop CROP_CHOICES /\
    y = index_of crop (np_unique (Crop d)) /\
    nth_error (np_unique (Crop d)) y = Some crop.
Proof.
  intros (_ & _ & Hchoice & _) Hy.
  rewrite training_labels_encode, in_map_iff in Hy.
  destruct Hy as (crop & <- & Hcrop). exists crop.
  pose proof (training_crops_drawn d crop Hcrop) as Hdrawn.
  rewrite Forall_forall in Hchoice.
  repeat split; auto.
  apply SklearnFacts.index_of_nth_error, SklearnFacts.np_unique_In, Hdrawn.
Qed.

Lemma nodup_nonempty (l : list nat) : l <> [] -> nodup Nat.eq_dec l <> [].
Proof.
  destruct l as [| a l]; [congruence |]. intros _ E.
  assert (Hin : In a (nodup Nat.eq_dec (a :: l))) by (apply nodup_In; now left).
  rewrite E in Hin. contradiction.
Qed.

Lemma BASE_INFO_fields (crop : string) :
  In crop CROP_CHOICES ->
  exists fields,
    PyDict.get BASE_INFO crop = Some fields /\ keys fields = SEVEN_HEADINGS.
Proof.
  simpl. intros Hin.
  repeat (destruct Hin as [<- | Hin]; [eexists; split; reflexivity |]).
  contradiction.
Qed.

(** When every crop occurs among the training rows, the encoder knows the
    eight crops, in alphabetical order. *)
Lemma all_crops_classes (d : draws) :
  well_drawn d -> incl CROP_CHOICES (training_crops d) ->
  np_unique (Crop d) =
    ["Barley"; "Coffee"; "Cotton"; "Maize"; "Pulses"; "Rice"; "Sugarcane"; "Wheat"].
Proof.
  intros (_ & _ & Hchoice & _) Hall.
  change ["Barley"; "Coffee"; "Cotton"; "Maize"; "Pulses"; "Rice"; "Sugarcane"; "Wheat"]
    with (np_unique CROP_CHOICES).
  apply SklearnFacts.sorted_same_elements; try apply SklearnFacts.np_unique_sorted.
  intros z. rewrite !SklearnFacts.np_unique_In. rewrite Forall_forall in Hchoice.
  split; [apply Hchoice |]. intros Hz. apply training_crops_drawn, Hall, Hz.
Qed.

(** ... and the forest is fitted on eight distinct labels. *)
Lemma all_crops_labels (d : draws) :
  well_drawn d -> incl CROP_CHOICES (training_crops d) ->
  List.length (nodup Nat.eq_dec (training_labels d)) = 8%nat.
Proof.
  intros Hd Hall.
  assert (Hsub : incl (nodup Nat.eq_dec (training_labels d)) (seq 0 8)).
  { intros y Hy. apply nodup_In in Hy.
    destruct (training_label_decodes d y Hd Hy) as (crop & _ & Hchoice & -> & _).
    rewrite (all_crops_classes d Hd Hall). simpl in Hchoice.
    repeat (destruct Hchoice as [<- | Hchoice]; [vm_compute; auto 10 |]).
    contradiction. }
  assert (Hsup : incl (seq 0 8) (nodup Nat.eq_dec (training_labels d))).
  { assert (Hcrop : forall crop, In crop CROP_CHOICES ->
              In (index_of crop (np_unique CROP_CHOICES)) (training_labels d)).
    { intros crop Hc. rewrite training_labels_encode, (all_crops_classes d Hd Hall).
      apply (in_map (fun c => index_of c (np_unique CROP_CHOICES))), Hall, Hc. }
    intros y Hy. apply nodup_In. simpl in Hy.
    destruct Hy as [<- | [<- | [<- | [<- | [<- | [<- | [<- | [<- | []]]]]]]]].
    - apply (Hcrop "Barley"). simpl. auto 10.
    - apply (Hcrop "Coffee"). simpl. auto 10.
    - apply (Hcrop "Cotton"). simpl. auto 10.
    - apply (Hcrop "Maize"). simpl. auto 10.
    - apply (Hcrop "Pulses"). simpl. auto 10.
    - apply (Hcrop "Rice"). simpl. auto 10.
    - apply (Hcrop "Sugarcane"). simpl. auto 10.
    - apply (Hcrop "Wheat"). simpl. auto 10. }
  apply Nat.le_antisymm.
  - apply (NoDup_incl_length (NoDup_nodup Nat.eq_dec _) Hsub).
  - apply (NoDup_incl_length (seq_NoDup 8 0) Hsup).
Qed.


Section ClassifierProperties.

Context `{Classifier} `{PyRandom}.

(** What the forest answers in a state the process has reached, for data
    drawn as numpy draws it and a forest that keeps to its documentation. *)
Lemma reached_prediction (d : draws) (r : Rng) (acts : list action) (arr : list pyfloat) :
  well_drawn d -> classifier_contract ->
  let w := run d r acts in
  exists pred_crop top,
    inverse_transform (le w) (predict (model w) arr) = Some pred_crop /\
    In pred_crop CROP_CHOICES /\
    np_max (predict_proba (model w) arr) = Some top /\
    List.length (predict_proba (model w) arr) =
      List.length (nodup Nat.eq_dec (training_labels d)).
Proof.
  intros Hd Hcontract w.
  destruct (run_frame d r acts) as (_ & Hm & Hl & _). fold w in Hm, Hl.
  destruct (Hcontract (training_rows d) (training_labels d) arr
              (training_labels_nonempty d Hd)) as (Hlabel & Hlen).
  rewrite <- Hm in Hlabel, Hlen.
  destruct (training_label_decodes d _ Hd Hlabel) as (crop & _ & Hchoice & _ & Hnth).
  destruct (np_max_nonempty (predict_proba (model w) arr)) as (top & Htop).
  { intros E. rewrite E in Hlen. symmetry in Hlen. apply length_zero_iff_nil in Hlen.
    exact (nodup_nonempty _ (training_labels_nonempty d Hd) Hlen). }
  exists crop, top. unfold inverse_transform. rewrite Hl. simpl. auto.
Qed.

(** C6.  In every state the process reaches, for data drawn as numpy draws
    it and a forest that answers one of its training labels, a request whose
    seven values are within their ranges gets a crop that is one of the eight
    choices; this crop is a key of the knowledge table, so the lookup of the
    guide finds its seven fields and does not fall back on its default; the
    label and the guide are then written. *)
Theorem C6_predicted_crop_is_a_key_of_the_table
    (d : draws) (r : Rng) (acts : list action) (n p k t h ph rf : pyfloat) :
  well_drawn d -> classifier_contract ->
  let w := run d r acts in
  let arr := values (measurement n p k t h ph rf) in
  read_entries (entries w) = Some (measurement n p k t h ph rf) ->
  within_ranges n p k t h ph rf ->
  exists pred_crop top fields text rest,
    inverse_transform (le w) (predict (model w) arr) = Some pred_crop /\
    In pred_crop CROP_CHOICES /\
    PyDict.get (base_info w) pred_crop = Some fields /\
    get_default (base_info w) pred_crop [] = fields /\
    keys fields = SEVEN_HEADINGS /\
    emitted predict_crop w =
      Predict arr :: PredictProba arr :: LabelConfig (recommendation pred_crop top)
        :: InfoInsert text :: rest.
Proof.
  intros Hd Hcontract w arr E Hin.
  destruct (reached_prediction d r acts arr Hd Hcontract)
    as (crop & top & Hinv & Hchoice & Htop & _). fold w in Hinv, Htop.
  destruct (run_frame d r acts) as (Hb & _). fold w in Hb.
  destruct (BASE_INFO_fields crop Hchoice) as (fields & Hget & Hkeys).
  pose proof (predict_crop_accepted w _ E
                (proj2 (field_ok_measurement n p k t h ph rf) Hin)) as Hrun.
  cbv zeta in Hrun. fold arr in Hrun. rewrite Hinv, Htop in Hrun.
  destruct Hrun as (text & r' & Hrun).
  assert (Hev : exists rest,
            emitted predict_crop w =
              Predict arr :: PredictProba arr :: LabelConfig (recommendation crop top)
                :: InfoInsert text :: rest).
  { destruct (barh (classes_ (le w)) (predict_proba (model w) arr)) as [bars |].
    - eexists. exact (emitted_repaint _ _ _ _ _ _ _ _ Hrun).
    - destruct Hrun as (e & Hrun). eexists. exact (emitted_repaint _ _ _ _ _ _ _ _ Hrun). }
  destruct Hev as (rest & Hev).
  exists crop, top, fields, text, rest. rewrite Hb.
  unfold get_default. rewrite Hget. auto 10.
Qed.

(** C7.  The forest is fitted once, by the module body, on the training
    part of the data drawn there; the fit is the first event of the process
    and the only one of its kind, whatever the user does afterwards; the
    forest every later request consults is this one, and none of the four
    methods replaces it. *)
Theorem C7_classifier_fitted_once_at_startup
    (d : draws) (r : Rng) (acts : list action) :
  let w := run d r acts in
  let fitted := fit (training_rows d) (training_labels d) in
  model w = fitted /\
  model (run d r []) = fitted /\
  incl (training_rows d) (X_rows d) /\
  training_labels d = map (fun c => index_of c (np_unique (Crop d))) (training_crops d) /\
  incl (training_crops d) (Crop d) /\
  hd_error (log w) = Some (Fit (training_rows d) (training_labels d)) /\
  filter is_fit (log w) = [Fit (training_rows d) (training_labels d)] /\
  (forall w', model (snd (predict_crop w')) = model w') /\
  (forall w', model (snd (search_crop w')) = model w') /\
  (forall w' crop inputs, model (snd (_show_crop_info crop inputs w')) = model w') /\
  (forall w' probs, model (snd (_show_chart probs w')) = model w').
Proof.
  intros w fitted.
  destruct (run_frame d r acts) as (_ & Hm & _ & _ & evs & Hlog & Hfit). fold w in Hm, Hlog.
  split; [exact Hm |]. split; [reflexivity |].
  split; [apply training_rows_drawn |].
  split; [apply training_labels_encode |].
  split; [apply training_crops_drawn |].
  split; [now rewrite Hlog |].
  split; [rewrite Hlog; simpl; now rewrite (filter_none _ _ Hfit) |].
  split; [| split; [| split]].
  - intros w'. apply (step_frame w' ClickPredict).
  - intros w'. apply (step_frame w' ClickSearch).
  - intros w' crop inputs. apply (step_frame w' (CallShowCropInfo crop inputs)).
  - intros w' probs. apply (step_frame w' (CallShowChart probs)).
Qed.


End ClassifierProperties.

(** ** The classifier on the sample run-time *)

Module SampleFacts.

Import Sample.

Lemma In_by_test (c : string) (l : list string) :
  existsb (String.eqb c) l = true -> In c l.
Proof.
  rewrite existsb_exists. intros (x & Hx & Heq).
  apply String.eqb_eq in Heq. now subst.
Qed.

Lemma forest_contract : @classifier_contract forest.
Proof.
  intros X y arr Hy. simpl. split.
  - pose proof (nodup_nonempty y Hy) as Hne.
    destruct (nodup Nat.eq_dec y) as [| a l] eqn:E; [congruence |].
    simpl. apply (nodup_In Nat.eq_dec). rewrite E. now left.
  - apply length_map.
Qed.

Lemma drawn_well : well_drawn drawn.
Proof.
  split; [reflexivity |]. split; [reflexivity |]. split; [| apply Permutation_refl].
  apply Forall_forall. intros c Hc. apply In_by_test.
  assert (Hall : forallb (fun c => existsb (String.eqb c) CROP_CHOICES) (Crop drawn) = true)
    by (vm_compute; reflexivity).
  rewrite forallb_forall in Hall. auto.
Qed.

Lemma drawn_covers : incl CROP_CHOICES (training_crops drawn).
Proof.
  intros c Hc. apply In_by_test.
  assert (Hall : forallb (fun c => existsb (String.eqb c) (training_crops drawn))
                   CROP_CHOICES = true) by (vm_compute; reflexivity).
  rewrite forallb_forall in Hall. auto.
Qed.

End SampleFacts.

(** C6 on the sample run-time. *)
Lemma C6_sample_request_finds_its_guide :
  let w := Sample.filled "90" "42" "43" "21" "82" "6.5" "203" in
  let arr := values (measurement (Finite 90) (Finite 42) (Finite 43) (Finite 21)
                       (Finite 82) (Finite (13 # 2)) (Finite 203)) in
  exists pred_crop top fields text rest,
    inverse_transform (le w) (predict (model w) arr) = Some pred_crop /\
    In pred_crop CROP_CHOICES /\
    PyDict.get (base_info w) pred_crop = Some fields /\
    get_default (base_info w) pred_crop [] = fields /\
    keys fields = SEVEN_HEADINGS /\
    emitted predict_crop w =
      Predict arr :: PredictProba arr :: LabelConfig (recommendation pred_crop top)
        :: InfoInsert text :: rest.
Proof.
  apply (@C6_predicted_crop_is_a_key_of_the_table Sample.forest Sample.first_k Sample.drawn tt
           (Sample.typing "90" "42" "43" "21" "82" "6.5" "203")).
  - exact SampleFacts.drawn_well.
  - exact SampleFacts.forest_contract.
  - vm_compute. reflexivity.
  - repeat split; in_range_now.
Defined.


(* ------------------------------------------------------------------------- *)
(** * The label encoder and the split of the data *)
(* ------------------------------------------------------------------------- *)

Lemma sorted_NoDup (l : list string) : StronglySorted string_lt l -> NoDup l.
Proof.
  induction 1 as [| a l Hs IH Ha]; constructor; [| exact IH].
  intros Hin. rewrite Forall_forall in Ha.
  exact (SklearnFacts.string_lt_irrefl a (Ha a Hin)).
Qed.

Lemma index_of_bound (x : string) (l : list string) :
  In x l -> (index_of x l < List.length l)%nat.
Proof.
  intros Hin. apply nth_error_Some.
  rewrite (SklearnFacts.index_of_nth_error x l Hin). discriminate.
Qed.

(** X1.  Whatever column the encoder is fitted on, its classes are the
    distinct values of the column in increasing order, every label it gives
    is a position in the classes, decoding the encoded column gives the
    column back, and a label past the last class is refused. *)
Theorem X1_label_encoder_round_trip (col : list string) :
  let le := fst (fit_transform col) in
  let labels := snd (fit_transform col) in
  map (inverse_transform le) labels = map Some col /\
  StronglySorted string_lt (classes_ le) /\
  NoDup (classes_ le) /\
  (forall c, In c (classes_ le) <-> In c col) /\
  Forall (fun y => (y < List.length (classes_ le))%nat) labels /\
  (forall y, (List.length (classes_ le) <= y)%nat -> inverse_transform le y = None).
Proof.
  unfold fit_transform, inverse_transform. simpl.
  split; [| split; [| split; [| split; [| split]]]].
  - rewrite map_map. apply map_ext_in. intros c Hc.
    apply SklearnFacts.index_of_nth_error, SklearnFacts.np_unique_In, Hc.
  - apply SklearnFacts.np_unique_sorted.
  - apply sorted_NoDup, SklearnFacts.np_unique_sorted.
  - intros c. apply SklearnFacts.np_unique_In.
  - apply Forall_forall. intros y Hy. apply in_map_iff in Hy.
    destruct Hy as (c & <- & Hc). apply index_of_bound, SklearnFacts.np_unique_In, Hc.
  - intros y Hy. now apply nth_error_None.
Qed.




Lemma take_combine {A B : Type} (l : list A) (l' : list B) (idx : list nat) :
  List.length l' = List.length l ->
  take (combine l l') idx = combine (take l idx) (take l' idx).
Proof.
  intros Hlen. unfold take. induction idx as [| i idx IH]; simpl; [reflexivity |].
  rewrite IH. clear IH.
  destruct (nth_error l i) as [a |] eqn:Ea.
  - destruct (nth_error l' i) as [b |] eqn:Eb.
    + assert (E : nth_error (combine l l') i = Some (a, b)).
      { clear - Ea Eb. revert l l' Ea Eb.
        induction i as [| i IH]; intros [| x l] [| y l']; simpl; try discriminate.
        - now intros [= ->] [= ->].
        - apply IH. }
      rewrite E. reflexivity.
    + exfalso. apply nth_error_None in Eb.
      assert (Hi : (i < List.length l)%nat) by (apply nth_error_Some; congruence). lia.
  - assert (E : nth_error (combine l l') i = None).
    { apply nth_error_None. rewrite length_combine.
      apply nth_error_None in Ea. lia. }
    rewrite E. destruct (nth_error l' i) eqn:Eb; [| reflexivity].
    exfalso. apply nth_error_None in Ea.
    assert (Hi : (i < List.length l')%nat) by (apply nth_error_Some; congruence). lia.
Qed.




(* ------------------------------------------------------------------------- *)
(** * The form and the prediction callback over a whole session *)
(* ------------------------------------------------------------------------- *)

Lemma read_entries_keys (es : dict string) (inputs : dict pyfloat) :
  read_entries es = Some inputs -> keys inputs = keys es.
Proof.
  revert inputs. induction es as [| [k v] es IH]; intros inputs; simpl.
  - now intros [= <-].
  - destruct (float v) as [x |]; [| discriminate].
    destruct (read_entries es) as [rest |]; simpl; [| discriminate].
    intros [= <-]. simpl. f_equal. now apply IH.
Qed.



Lemma measurement_shape (inputs : dict pyfloat) :
  keys inputs = FIELD_KEYS ->
  exists n p k t h ph r, inputs = measurement n p k t h ph r.
Proof.
  unfold keys, FIELD_KEYS, measurement. intros E.
  repeat (destruct inputs as [| [? ?] inputs]; [discriminate E |]).
  destruct inputs; [| discriminate E].
  simpl in E. injection E as -> -> -> -> -> -> ->.
  do 7 eexists. reflexivity.
Qed.

Ltac events_are_queries_or_renders :=
  repeat (apply Forall_cons;
          [first [now left | now (right; left) | now (right; right)] |]);
  apply Forall_nil.

Section Session.

Context `{Classifier} `{PyRandom}.

Lemma reached_inputs (d : draws) (r : Rng) (acts : list action) (inputs : dict pyfloat) :
  read_entries (entries (run d r acts)) = Some inputs ->
  exists n p k t h ph rf, inputs = measurement n p k t h ph rf.
Proof.
  intros E. apply measurement_shape.
  rewrite (read_entries_keys _ _ E). apply (run_frame d r acts).
Qed.

(** X3.  The form starts with seven empty entries, an empty label, an empty
    guide and no chart; in every state the process reaches the entries are
    still the seven of the form, in the order of the training columns, so
    whenever all seven texts are numbers the values read are a full
    measurement in that order. *)
Theorem X3_form_keeps_its_seven_entries (d : draws) (r : Rng) (acts : list action) :
  let w := run d r acts in
  entries (run d r []) = map (fun key => (key, "")) FIELD_KEYS /\
  display (run d r []) = ("", "", []) /\
  keys (entries w) = FIELD_KEYS /\
  FIELD_KEYS = map (fun f => snd (fst f)) fields /\
  (forall inputs,
     read_entries (entries w) = Some inputs ->
     exists n p k t h ph rf,
       inputs = measurement n p k t h ph rf /\
       values inputs = [n; p; k; t; h; ph; rf]).
Proof.
  intros w. split; [reflexivity |]. split; [reflexivity |].
  split; [apply (run_frame d r acts) |]. split; [reflexivity |].
  intros inputs E.
  destruct (reached_inputs d r acts inputs E) as (n & p & k & t & h & ph & rf & ->).
  do 7 eexists. split; reflexivity.
Qed.


Lemma show_chart_mismatch (probs : list Q) (w : world) :
  barh (classes_ (le w)) probs = None ->
  exists message, _show_chart probs w =
    (Raised (ValueError message), repaint w (rng w) (result_label w) (info_text w) [] []).
Proof.
  intros E. unfold _show_chart, bind, get_world, set_chart_frame, emit. simpl.
  rewrite E. eexists. unfold raise, repaint. simpl. rewrite app_nil_r. reflexivity.
Qed.

(** The ways an accepted request can end: with the chart drawn, or with a
    [ValueError] from the decoder, from [np.max] or from [barh]. *)
Lemma accepted_request_outcome (w : world) (inputs : dict pyfloat) :
  read_entries (entries w) = Some inputs ->
  Forall (field_ok inputs) ranges ->
  let arr := values inputs in
  exists res r l i c evs,
    predict_crop w = (res, repaint w r l i c evs) /\
    (res = Done tt \/ exists message, res = Raised (ValueError message)) /\
    (res = Done tt ->
       exists bars, c = [bars] /\
         evs = [Predict arr; PredictProba arr; LabelConfig l; InfoInsert i; ChartDraw bars]) /\
    hd_error evs = Some (Predict arr) /\
    Forall (fun e => e = Predict arr \/ e = PredictProba arr \/ is_render e = true) evs /\
    (c = chart_frame w \/ (List.length c <= 1)%nat).
Proof.
  intros E Hall arr.
  assert (Hstart : predict_crop w =
            bind (emit (Predict arr))
              (fun _ =>
                 match inverse_transform (le w) (predict (model w) arr) with
                 | Some pred_crop =>
                     bind (emit (PredictProba arr))
                       (fun _ =>
                          match np_max (predict_proba (model w) arr) with
                          | Some top =>
                              bind (label_config (recommendation pred_crop top))
                                (fun _ => bind (_show_crop_info pred_crop inputs)
                                            (fun _ => _show_chart (predict_proba (model w) arr)))
                          | None => raise (ValueError "zero-size array to reduction operation maximum which has no identity")
                          end)
                 | None => raise (ValueError "y contains previously unseen labels")
                 end) w).
  { unfold predict_crop. rewrite (bind_done _ _ w w w (get_world_spec w)).
    rewrite E. rewrite (bind_done _ _ w w true (check_ranges_pass inputs ranges w Hall)).
    reflexivity. }
  rewrite (bind_done _ _ _ _ tt (emit_spec (Predict arr) w)) in Hstart.
  destruct (inverse_transform (le w) (predict (model w) arr)) as [crop |].
  - rewrite (bind_done _ _ _ _ tt (emit_spec (PredictProba arr) _)) in Hstart.
    destruct (np_max (predict_proba (model w) arr)) as [top |].
    + set (label := recommendation crop top) in *.
      rewrite (bind_done _ _ _ _ tt (label_config_spec label _)) in Hstart.
      unfold logged in Hstart. rewrite !repaint_repaint in Hstart.
      cbn [rng result_label info_text chart_frame repaint app] in Hstart.
      match type of Hstart with
      | _ = bind (_show_crop_info crop inputs) _ ?w1 =>
          destruct (show_crop_info_spec crop inputs w1) as (text & r & Einfo);
          rewrite (bind_done _ _ _ _ tt Einfo) in Hstart
      end.
      rewrite repaint_repaint in Hstart.
      cbn [rng result_label info_text chart_frame repaint app] in Hstart.
      destruct (barh (classes_ (le w)) (predict_proba (model w) arr)) as [bars |] eqn:Ebar.
      * rewrite show_chart_drawn with (bars := bars) in Hstart by exact Ebar.
        rewrite repaint_repaint in Hstart.
        cbn [rng result_label info_text chart_frame repaint app] in Hstart.
        do 6 eexists. split; [exact Hstart |].
        split; [now left |]. split; [intros _; eexists; split; reflexivity |].
        split; [reflexivity |].
        split; [events_are_queries_or_renders | first [now left | right; simpl; lia]].
      * match type of Hstart with
        | _ = _show_chart _ ?w2 =>
            destruct (show_chart_mismatch _ w2 Ebar) as (message & Echart)
        end.
        rewrite Echart, repaint_repaint in Hstart.
        do 6 eexists. split; [exact Hstart |].
        split; [right; eauto |]. split; [discriminate |]. split; [reflexivity |].
        split; [events_are_queries_or_renders | first [now left | right; simpl; lia]].
    + unfold raise, logged in Hstart. rewrite repaint_repaint in Hstart.
      do 6 eexists. split; [exact Hstart |].
      split; [right; eauto |]. split; [discriminate |]. split; [reflexivity |].
      split; [events_are_queries_or_renders | first [now left | right; simpl; lia]].
  - unfold raise in Hstart.
    do 6 eexists. split; [exact Hstart |].
    split; [right; eauto |]. split; [discriminate |]. split; [reflexivity |].
    split; [events_are_queries_or_renders | first [now left | right; simpl; lia]].
Qed.

Lemma renders_and_queries_are_no_dialog (arr : list pyfloat) (evs : list event) :
  Forall (fun e => e = Predict arr \/ e = PredictProba arr \/ is_render e = true) evs ->
  filter is_dialog evs = [] /\ existsb is_dialog evs = false.
Proof.
  induction 1 as [| e evs He _ (IHf & IHe)]; [split; reflexivity |].
  assert (Hd : is_dialog e = false).
  { destruct He as [-> | [-> | He]]; [reflexivity | reflexivity |].
    destruct e; simpl in *; congruence. }
  simpl. rewrite Hd. auto.
Qed.

(** X5.  In every state the process reaches, whatever the data and the
    forest, a click on Predict never raises [KeyError]; it shows at most one
    dialog; when it shows one the classifier is not queried and the display
    stays as it was; and when it shows none the classifier is queried: no
    click passes silently. *)
Theorem X5_a_click_shows_a_dialog_or_queries_the_classifier
    (d : draws) (r : Rng) (acts : list action) :
  let w := run d r acts in
  (forall key, fst (predict_crop w) <> Raised (KeyError key)) /\
  (List.length (filter is_dialog (emitted predict_crop w)) <= 1)%nat /\
  (existsb is_dialog (emitted predict_crop w) = true ->
     existsb is_inference (emitted predict_crop w) = false /\
     display (snd (predict_crop w)) = display w) /\
  (existsb is_dialog (emitted predict_crop w) = false ->
     existsb is_inference (emitted predict_crop w) = true).
Proof.
  intros w.
  assert (Hdialog : forall message,
            predict_crop w = (Done tt, logged w [ShowError "Invalid Input" message]) ->
            (forall key, fst (predict_crop w) <> Raised (KeyError key)) /\
            (List.length (filter is_dialog (emitted predict_crop w)) <= 1)%nat /\
            (existsb is_dialog (emitted predict_crop w) = true ->
               existsb is_inference (emitted predict_crop w) = false /\
               display (snd (predict_crop w)) = display w) /\
            (existsb is_dialog (emitted predict_crop w) = false ->
               existsb is_inference (emitted predict_crop w) = true)).
  { intros message Hrun. rewrite (emitted_logged _ _ _ _ Hrun), Hrun. simpl.
    repeat split; try discriminate. apply Nat.le_refl. }
  destruct (read_entries (entries w)) as [inputs |] eqn:E.
  - destruct (reached_inputs d r acts inputs E) as (n & p & k & t & h & ph & rf & ->).
    destruct (measurement_cases n p k t h ph rf w) as [[Hin _] | [_ Hstop]].
    + destruct (accepted_request_outcome w _ E
                  (proj2 (field_ok_measurement n p k t h ph rf) Hin))
        as (res & r' & l & i & c & evs & Hrun & Hres & _ & Hhd & Hall & _).
      destruct (renders_and_queries_are_no_dialog _ evs Hall) as (Hf & He).
      rewrite (emitted_repaint _ _ _ _ _ _ _ _ Hrun), Hrun, Hf, He. simpl.
      split; [| split; [apply Nat.le_0_l | split; [discriminate |]]].
      * intros key. destruct Hres as [-> | (message & ->)]; discriminate.
      * intros _. destruct evs as [| e evs]; [discriminate |].
        injection Hhd as ->. reflexivity.
    + destruct Hstop as (pre & key & low & high & post & x & Hs & Hpre & Hget & Hx & _).
      exact (Hdialog _ (predict_crop_out_of_range w _ pre key low high post x E Hs Hpre Hget Hx)).
  - exact (Hdialog _ (predict_crop_not_numeric w E)).
Qed.

(** X6.  In every state the process reaches, for data drawn as numpy draws
    it with all eight crops among the training rows and a forest that keeps
    to its documentation, a click on Predict never raises, whatever the
    entries hold: it either shows one dialog and leaves the display alone, or
    queries the forest twice on the same seven values and then writes the
    label, the guide and a chart of eight bars, in this order. *)
Theorem X6_a_click_never_raises
    (d : draws) (r : Rng) (acts : list action) :
  well_drawn d -> incl CROP_CHOICES (training_crops d) -> classifier_contract ->
  let w := run d r acts in
  fst (predict_crop w) = Done tt /\
  ((exists message,
       emitted predict_crop w = [ShowError "Invalid Input" message] /\
       display (snd (predict_crop w)) = display w) \/
   (exists arr label text bars,
       emitted predict_crop w =
         [Predict arr; PredictProba arr; LabelConfig label; InfoInsert text; ChartDraw bars] /\
       display (snd (predict_crop w)) = (label, text, [bars]) /\
       List.length arr = 7%nat /\ List.length bars = 8%nat)).
Proof.
  intros Hd Hcover Hcontract w.
  assert (Hdialog : forall message,
            predict_crop w = (Done tt, logged w [ShowError "Invalid Input" message]) ->
            fst (predict_crop w) = Done tt /\
            ((exists message,
                 emitted predict_crop w = [ShowError "Invalid Input" message] /\
                 display (snd (predict_crop w)) = display w) \/
             (exists arr label text bars,
                 emitted predict_crop w =
                   [Predict arr; PredictProba arr; LabelConfig label; InfoInsert text;
                    ChartDraw bars] /\
                 display (snd (predict_crop w)) = (label, text, [bars]) /\
                 List.length arr = 7%nat /\ List.length bars = 8%nat))).
  { intros message Hrun. split; [now rewrite Hrun |]. left. exists message.
    rewrite (emitted_logged _ _ _ _ Hrun), Hrun. split; reflexivity. }
  destruct (read_entries (entries w)) as [inputs |] eqn:E.
  - destruct (reached_inputs d r acts inputs E) as (n & p & k & t & h & ph & rf & ->).
    destruct (measurement_cases n p k t h ph rf w) as [[Hin _] | [_ Hstop]].
    + set (arr := values (measurement n p k t h ph rf)).
      set (probs := predict_proba (model w) arr).
      destruct (reached_prediction d r acts arr Hd Hcontract)
        as (crop & top & Hinv & _ & Htop & Hlen).
      fold w in Hinv, Htop, Hlen. fold probs in Htop, Hlen.
      rewrite (all_crops_labels d Hd Hcover) in Hlen.
      destruct (run_frame d r acts) as (_ & _ & Hl & _). fold w in Hl.
      assert (Hbar : barh (classes_ (le w)) probs =
                Some (combine (np_unique (Crop d)) probs)).
      { rewrite Hl. simpl. unfold barh.
        rewrite (all_crops_classes d Hd Hcover), Hlen. reflexivity. }
      pose proof (predict_crop_accepted w _ E
                    (proj2 (field_ok_measurement n p k t h ph rf) Hin)) as Hrun.
      cbv zeta in Hrun. fold arr in Hrun. fold probs in Hrun.
      rewrite Hinv, Htop, Hbar in Hrun. destruct Hrun as (text & r' & Hrun).
      split; [now rewrite Hrun |]. right.
      exists arr, (recommendation crop top), text, (combine (np_unique (Crop d)) probs).
      rewrite (emitted_repaint _ _ _ _ _ _ _ _ Hrun), Hrun.
      repeat split.
      rewrite length_combine, (all_crops_classes d Hd Hcover), Hlen. reflexivity.
    + destruct Hstop as (pre & key & low & high & post & x & Hs & Hpre & Hget & Hx & _).
      exact (Hdialog _ (predict_crop_out_of_range w _ pre key low high post x E Hs Hpre Hget Hx)).
  - exact (Hdialog _ (predict_crop_not_numeric w E)).
Qed.

Lemma search_crop_events (w : world) :
  exists evs, log (snd (search_crop w)) = (log w ++ evs)%list /\
              existsb is_inference evs = false.
Proof.
  destruct (mem (PyStr.strip (PyStr.capitalize (search_var w))) (base_info w)) eqn:E.
  - destruct (search_crop_found w E) as (text & r & ->). eexists. split; reflexivity.
  - rewrite (search_crop_not_found w E). eexists. split; reflexivity.
Qed.

Lemma no_inference_is_valid (evs : list event) :
  existsb is_inference evs = false -> Forall valid_query evs.
Proof.
  induction evs as [| e evs IH]; simpl; [constructor |].
  rewrite orb_false_iff. intros [He Hevs]. constructor; [| auto].
  destruct e; simpl in *; try exact I; discriminate.
Qed.

Lemma step_queries (w : world) (a : action) :
  keys (entries w) = FIELD_KEYS ->
  exists evs, log (step w a) = (log w ++ evs)%list /\ Forall valid_query evs.
Proof.
  intros Hkeys.
  assert (Hsame : forall w', log w' = log w ->
            exists evs, log w' = (log w ++ evs)%list /\ Forall valid_query evs).
  { intros w' ->. exists []. split; [now rewrite app_nil_r | constructor]. }
  destruct a as [key text | text | | | crop inputs | probs]; simpl.
  - destruct (mem key (entries w)); apply Hsame; reflexivity.
  - apply Hsame; reflexivity.
  - destruct (read_entries (entries w)) as [inputs |] eqn:E.
    + assert (Hshape : keys inputs = FIELD_KEYS)
        by (now rewrite (read_entries_keys _ _ E)).
      destruct (measurement_shape inputs Hshape) as (n & p & k & t & h & ph & rf & ->).
      destruct (measurement_cases n p k t h ph rf w) as [[Hin _] | [_ Hstop]].
      * destruct (accepted_request_outcome w _ E
                    (proj2 (field_ok_measurement n p k t h ph rf) Hin))
          as (res & r' & l & i & c & evs & Hrun & _ & _ & _ & Hall & _).
        rewrite Hrun. exists evs. split; [reflexivity |].
        eapply Forall_impl; [| exact Hall]. intros e He.
        destruct He as [-> | [-> | He]].
        -- do 7 eexists. split; [reflexivity | exact Hin].
        -- do 7 eexists. split; [reflexivity | exact Hin].
        -- destruct e; simpl in *; try exact I; discriminate.
      * destruct Hstop as (pre & key & low & high & post & x & Hs & Hpre & Hget & Hx & _).
        rewrite (predict_crop_out_of_range w _ pre key low high post x E Hs Hpre Hget Hx).
        eexists. split; [reflexivity |]. repeat constructor.
    + rewrite (predict_crop_not_numeric w E).
      eexists. split; [reflexivity |]. repeat constructor.
  - destruct (search_crop_events w) as (evs & Hlog & Hno).
    exists evs. split; [exact Hlog | now apply no_inference_is_valid].
  - destruct (show_crop_info_spec crop inputs w) as (text & r & ->).
    eexists. split; [reflexivity |]. repeat constructor.
  - destruct (barh (classes_ (le w)) probs) as [bars |] eqn:E.
    + rewrite (show_chart_drawn probs w bars E).
      eexists. split; [reflexivity |]. repeat constructor.
    + destruct (show_chart_raised probs w E) as (e & ->).
      eexists. split; [reflexivity |]. constructor.
Qed.

(** X7.  Over a whole session, whatever the user types and clicks, every
    query the forest ever receives carries exactly seven values, each a
    finite number within the range of its field: a text that is not a number,
    NaN, an infinity or a value out of range never reaches the forest. *)
Theorem X7_the_forest_only_sees_valid_measurements
    (d : draws) (r : Rng) (acts : list action) :
  Forall valid_query (log (run d r acts)).
Proof.
  assert (Hloop : forall w, keys (entries w) = FIELD_KEYS ->
            Forall valid_query (log w) ->
            Forall valid_query (log (mainloop acts w))).
  { induction acts as [| a acts IH]; intros w Hkeys Hlog; [exact Hlog |].
    simpl. apply IH.
    - destruct (step_frame w a) as (_ & _ & _ & Hk & _). now rewrite Hk.
    - destruct (step_queries w a Hkeys) as (evs & -> & Hevs).
      apply Forall_app. auto. }
  apply Hloop; [reflexivity | repeat constructor].
Qed.

End Session.

(* ------------------------------------------------------------------------- *)
(** * The guide, the search and the chart *)
(* ------------------------------------------------------------------------- *)

Lemma contains_app_right (x a b : string) :
  PyStr.contains x b = true -> PyStr.contains x (a ++ b) = true.
Proof.
  intros Hb. induction a as [| c a IH]; [exact Hb |].
  simpl. rewrite IH. apply orb_true_r.
Qed.

Lemma prefix_itself (x b : string) : String.prefix x (x ++ b) = true.
Proof.
  induction x as [| c x IH]; simpl; [now destruct b |].
  destruct (ascii_dec c c); [exact IH | congruence].
Qed.

Lemma contains_prefix (x s : string) :
  String.prefix x s = true -> PyStr.contains x s = true.
Proof.
  intros Hp. destruct s; cbn [PyStr.contains]; now rewrite Hp.
Qed.

Lemma contains_itself (x a b : string) : PyStr.contains x (a ++ x ++ b) = true.
Proof. apply contains_app_right, contains_prefix, prefix_itself. Qed.

(** The lines of the guide for the fields of a table entry. *)
Lemma field_lines_grow (fields : dict string) (acc : string) :
  exists lines,
    fold_left (fun a '(heading, text) =>
                 a ++ "🔹 " ++ heading ++ ": " ++ text ++ PyStr.nl ++ PyStr.nl)
      fields acc = acc ++ lines /\
    (fields = [] -> lines = "") /\
    forall heading text, In (heading, text) fields ->
      PyStr.contains ("🔹 " ++ heading ++ ": " ++ text) lines = true.
Proof.
  revert acc. induction fields as [| [h t] fields IH]; intros acc.
  - exists "". simpl. split; [| split; [reflexivity | contradiction]].
    clear. induction acc as [| c acc IHacc]; simpl; [reflexivity | now rewrite <- IHacc].
  - cbn [fold_left].
    destruct (IH (acc ++ "🔹 " ++ h ++ ": " ++ t ++ PyStr.nl ++ PyStr.nl))
      as (lines & -> & _ & Hlines).
    exists (("🔹 " ++ h ++ ": " ++ t ++ PyStr.nl ++ PyStr.nl) ++ lines).
    split; [apply append_assoc |]. split; [discriminate |].
    intros heading text [[= -> ->] | Hin].
    + change ("🔹 " ++ heading ++ ": " ++ text ++ PyStr.nl ++ PyStr.nl)
        with ("🔹 " ++ (heading ++ ": " ++ text ++ PyStr.nl ++ PyStr.nl)).
      change ("🔹 " ++ heading ++ ": " ++ text)
        with ("🔹 " ++ (heading ++ ": " ++ text)).
      replace (("🔹 " ++ heading ++ ": " ++ text ++ PyStr.nl ++ PyStr.nl) ++ lines)
        with ("" ++ ("🔹 " ++ heading ++ ": " ++ text) ++ (PyStr.nl ++ PyStr.nl ++ lines)).
      * apply contains_itself.
      * simpl. f_equal. f_equal. f_equal. f_equal. f_equal.
        rewrite !append_assoc. simpl. rewrite !append_assoc. reflexivity.
    + apply contains_app_right. auto.
Qed.

Section Rendering.

Context `{Classifier} `{PyRandom}.

(** The run of [_show_crop_info] and the shape of the guide it writes. *)
Lemma guide_shape (crop : string) (inputs : dict pyfloat) (w : world) :
  let w' := snd (_show_crop_info crop inputs w) in
  let title := "🌾 " ++ crop ++ " Cultivation Guide" ++ PyStr.nl ++ PyStr.repeat "-" 56
                 ++ PyStr.nl ++ PyStr.nl in
  let tips := fst (sample (rng w) EXTRA_TIPS 2) in
  exists lines,
    _show_crop_info crop inputs w =
      (Done tt,
       repaint w (snd (sample (rng w) EXTRA_TIPS 2)) (result_label w) (info_text w')
         (chart_frame w) [InfoInsert (info_text w')]) /\
    info_text w' =
      title ++ lines ++ "📝 Extra Tips:" ++ PyStr.nl
        ++ fold_left (fun acc t => acc ++ "   • " ++ t ++ PyStr.nl) tips "" /\
    (forall fields heading text,
       PyDict.get (base_info w) crop = Some fields -> In (heading, text) fields ->
       PyStr.contains ("🔹 " ++ heading ++ ": " ++ text) lines = true) /\
    (PyDict.get (base_info w) crop = None -> lines = "") /\
    String.prefix ("🌾 " ++ crop ++ " Cultivation Guide") (info_text w') = true.
Proof.
  intros w' title tips.
  assert (Hrun : _show_crop_info crop inputs w =
            (Done tt,
             repaint w (snd (sample (rng w) EXTRA_TIPS 2)) (result_label w)
               (fold_left (fun acc t => acc ++ "   • " ++ t ++ PyStr.nl) tips
                  (fold_left (fun a '(heading, text) =>
                                a ++ "🔹 " ++ heading ++ ": " ++ text ++ PyStr.nl ++ PyStr.nl)
                     (get_default (base_info w) crop []) title
                   ++ "📝 Extra Tips:" ++ PyStr.nl))
               (chart_frame w)
               [InfoInsert
                  (fold_left (fun acc t => acc ++ "   • " ++ t ++ PyStr.nl) tips
                     (fold_left (fun a '(heading, text) =>
                                   a ++ "🔹 " ++ heading ++ ": " ++ text ++ PyStr.nl ++ PyStr.nl)
                        (get_default (base_info w) crop []) title
                      ++ "📝 Extra Tips:" ++ PyStr.nl))])).
  { unfold _show_crop_info, bind, get_world, random_sample, tips.
    destruct (sample (rng w) EXTRA_TIPS 2) as [picked r]. reflexivity. }
  destruct (field_lines_grow (get_default (base_info w) crop []) title)
    as (lines & Hlines & Hnone & Hfields).
  assert (Htext : info_text w' =
            title ++ lines ++ "📝 Extra Tips:" ++ PyStr.nl
              ++ fold_left (fun acc t => acc ++ "   • " ++ t ++ PyStr.nl) tips "").
  { unfold w'. rewrite Hrun. cbn [snd info_text repaint].
    rewrite (fold_left_append (fun t => "   • " ++ t ++ PyStr.nl)), Hlines.
    now rewrite !append_assoc. }
  exists lines.
  split; [unfold w' at 1 2; rewrite Hrun at 2 3; exact Hrun |].
  split; [exact Htext |]. split; [| split].
  - intros fields heading text Hget Hin. apply Hfields.
    unfold get_default. now rewrite Hget.
  - intros Hget. apply Hnone. unfold get_default. now rewrite Hget.
  - rewrite Htext. unfold title.
    replace ("🌾 " ++ crop ++ " Cultivation Guide" ++ PyStr.nl ++ PyStr.repeat "-" 56
               ++ PyStr.nl ++ PyStr.nl)
      with (("🌾 " ++ crop ++ " Cultivation Guide")
              ++ (PyStr.nl ++ PyStr.repeat "-" 56 ++ PyStr.nl ++ PyStr.nl)).
    + rewrite append_assoc. apply prefix_itself.
    + simpl. f_equal. f_equal. f_equal. f_equal. f_equal. apply append_assoc.
Qed.

(** X9.  [_show_crop_info] never raises, for any table, crop and state: it
    draws the tips once, writes one guide and leaves the label and the chart
    alone; its second argument has no influence.  The guide starts with the
    title of the crop; for a crop of the table it has a line for each field
    of the entry; for a crop that is not in the table it goes straight from
    the title to the tips. *)
Theorem X9_guide_for_any_crop
    (crop : string) (inputs : dict pyfloat) (w : world) :
  let w' := snd (_show_crop_info crop inputs w) in
  let title := "🌾 " ++ crop ++ " Cultivation Guide" ++ PyStr.nl ++ PyStr.repeat "-" 56
                 ++ PyStr.nl ++ PyStr.nl in
  let tips := fst (sample (rng w) EXTRA_TIPS 2) in
  fst (_show_crop_info crop inputs w) = Done tt /\
  _show_crop_info crop inputs w = _show_crop_info crop [] w /\
  emitted (_show_crop_info crop inputs) w = [InfoInsert (info_text w')] /\
  rng w' = snd (sample (rng w) EXTRA_TIPS 2) /\
  result_label w' = result_label w /\ chart_frame w' = chart_frame w /\
  String.prefix ("🌾 " ++ crop ++ " Cultivation Guide") (info_text w') = true /\
  (forall fields heading text,
     PyDict.get (base_info w) crop = Some fields -> In (heading, text) fields ->
     PyStr.contains ("🔹 " ++ heading ++ ": " ++ text) (info_text w') = true) /\
  (PyDict.get (base_info w) crop = None ->
     info_text w' =
       title ++ "📝 Extra Tips:" ++ PyStr.nl
         ++ fold_left (fun acc t => acc ++ "   • " ++ t ++ PyStr.nl) tips "").
Proof.
  intros w' title tips.
  destruct (guide_shape crop inputs w) as (lines & Hrun & Htext & Hlines & Hnone & Htitle).
  fold w' in Hrun, Htext, Htitle. fold title in Htext. fold tips in Htext.
  split; [now rewrite Hrun |].
  split; [unfold _show_crop_info, bind, get_world, random_sample; reflexivity |].
  split; [exact (emitted_repaint _ _ _ _ _ _ _ _ Hrun) |].
  assert (Hw' : w' = repaint w (snd (sample (rng w) EXTRA_TIPS 2)) (result_label w)
                       (info_text w') (chart_frame w) [InfoInsert (info_text w')]).
  { unfold w' at 1. now rewrite Hrun. }
  split; [now rewrite Hw' |]. split; [now rewrite Hw' |]. split; [now rewrite Hw' |].
  split; [exact Htitle |]. split.
  - intros fields heading text Hget Hin. rewrite Htext.
    apply contains_app_right, contains_app. eapply Hlines; eauto.
  - intros Hget. rewrite Htext, (Hnone Hget). reflexivity.
Qed.



End Rendering.

Lemma barh_refuses (y : list string) (width : list Q) :
  barh y width = None <->
  List.length y <> List.length width /\ List.length y <> 1%nat /\ List.length width <> 1%nat.
Proof.
  unfold barh. destruct (Nat.eqb_spec (List.length y) (List.length width)) as [E | E].
  - split; [discriminate | tauto].
  - destruct y as [| c [| c' y]], width as [| p [| p' width]]; simpl in *;
      split; try discriminate; try tauto; try (intros _; repeat split; congruence).
Qed.

Section Chart.

Context `{Classifier} `{PyRandom}.

Lemma step_chart (w : world) (a : action) :
  (List.length (chart_frame w) <= 1)%nat ->
  (List.length (chart_frame (step w a)) <= 1)%nat.
Proof.
  intros Hw.
  destruct a as [key text | text | | | crop inputs | probs]; simpl.
  - now destruct (mem key (entries w)).
  - exact Hw.
  - destruct (read_entries (entries w)) as [inputs |] eqn:E.
    + destruct (check_ranges_cases inputs ranges w) as [[Hall _] | [Hstop | Hkey]].
      * destruct (accepted_request_outcome w _ E Hall)
          as (res & r' & l & i & c & evs & Hrun & _ & _ & _ & _ & Hc).
        rewrite Hrun. simpl. destruct Hc as [-> | Hc]; assumption.
      * destruct Hstop as (pre & key & low & high & post & x & Hs & Hpre & Hget & Hx & _).
        now rewrite (predict_crop_out_of_range w _ pre key low high post x E Hs Hpre Hget Hx).
      * destruct Hkey as (pre & key & lh & post & Hs & Hpre & Hget & _).
        now rewrite (predict_crop_key_error w _ pre key lh post E Hs Hpre Hget).
    + now rewrite (predict_crop_not_numeric w E).
  - destruct (mem (PyStr.strip (PyStr.capitalize (search_var w))) (base_info w)) eqn:E.
    + destruct (search_crop_found w E) as (text & r & ->). exact Hw.
    + now rewrite (search_crop_not_found w E).
  - destruct (show_crop_info_spec crop inputs w) as (text & r & ->). exact Hw.
  - destruct (barh (classes_ (le w)) probs) as [bars |] eqn:E.
    + rewrite (show_chart_drawn probs w bars E). simpl. apply Nat.le_refl.
    + destruct (show_chart_raised probs w E) as (e & ->). simpl. apply Nat.le_0_l.
Qed.

(** X10.  Charts do not pile up: in every state the process reaches the
    chart frame holds at most one chart.  A call of [_show_chart] with as many
    probabilities as the encoder has classes replaces whatever was there by
    one chart with a bar per class, the i-th class with the i-th probability;
    with another number of probabilities, neither number being one, it raises
    [ValueError] once the old chart is gone, and the frame is left empty. *)
Theorem X10_at_most_one_chart (d : draws) (r : Rng) (acts : list action) :
  (List.length (chart_frame (run d r acts)) <= 1)%nat /\
  (forall (w : world) probs,
     List.length probs = List.length (classes_ (le w)) ->
     _show_chart probs w =
       (Done tt,
        repaint w (rng w) (result_label w) (info_text w)
          [combine (classes_ (le w)) probs]
          [ChartDraw (combine (classes_ (le w)) probs)])) /\
  (forall (w : world) probs,
     List.length probs <> List.length (classes_ (le w)) ->
     List.length probs <> 1%nat -> List.length (classes_ (le w)) <> 1%nat ->
     (exists message, fst (_show_chart probs w) = Raised (ValueError message)) /\
     chart_frame (snd (_show_chart probs w)) = [] /\
     emitted (_show_chart probs) w = []).
Proof.
  split; [| split].
  - assert (Hloop : forall w, (List.length (chart_frame w) <= 1)%nat ->
              (List.length (chart_frame (mainloop acts w)) <= 1)%nat).
    { induction acts as [| a acts IH]; intros w Hw; [exact Hw |].
      simpl. apply IH, step_chart, Hw. }
    apply Hloop. simpl. apply Nat.le_0_l.
  - intros w probs Hlen. apply show_chart_drawn.
    unfold barh. now rewrite Hlen, Nat.eqb_refl.
  - intros w probs Hne Hp Hc.
    assert (E : barh (classes_ (le w)) probs = None).
    { apply barh_refuses. repeat split; congruence. }
    destruct (show_chart_mismatch probs w E) as (message & Hrun).
    split; [exists message; now rewrite Hrun |].
    split; [now rewrite Hrun |].
    exact (emitted_repaint _ _ _ _ _ _ _ _ Hrun).
Qed.

End Chart.

(** X11.  The form and the validation agree: the fields of the form are the
    keys of [ranges], in the same order, and the hint printed beside each
    entry is the range that the validation enforces for it. *)
Theorem X11_hints_agree_with_ranges :
  Forall2
    (fun (field : string * string * string) (item : string * (Z * Z)) =>
       snd (fst field) = fst item /\
       snd field = "(" ++ PyStr.str (fst (snd item)) ++ "–" ++ PyStr.str (snd (snd item)) ++ ")")
    fields ranges.
Proof.
  unfold fields, ranges. repeat (constructor; [split; reflexivity |]). constructor.
Qed.

(** ** The session properties on the sample run-time *)


(** X6 on the sample run-time, with a humidity out of its range. *)
Lemma X6_sample_click_returns :
  let w := Sample.filled "90" "42" "43" "21" "95" "6.5" "203" in
  fst (predict_crop w) = Done tt /\
  ((exists message,
       emitted predict_crop w = [ShowError "Invalid Input" message] /\
       display (snd (predict_crop w)) = display w) \/
   (exists arr label text bars,
       emitted predict_crop w =
         [Predict arr; PredictProba arr; LabelConfig label; InfoInsert text; ChartDraw bars] /\
       display (snd (predict_crop w)) = (label, text, [bars]) /\
       List.length arr = 7%nat /\ List.length bars = 8%nat)).
Proof.
  apply (@X6_a_click_never_raises Sample.forest Sample.first_k Sample.drawn tt
           (Sample.typing "90" "42" "43" "21" "95" "6.5" "203")).
  - exact SampleFacts.drawn_well.
  - exact SampleFacts.drawn_covers.
  - exact SampleFacts.forest_contract.
Defined.

(* ------------------------------------------------------------------------- *)
(** * The mouse wheel handler *)
(* ------------------------------------------------------------------------- *)

Lemma round_half_even_cases (n d : Z) :
  round_half_even n d = n / d \/ round_half_even n d = n / d + 1.
Proof.
  unfold round_half_even.
  destruct (2 * (n mod d) ?= d); [destruct (Z.even (n / d)) | |]; auto.
Qed.

Lemma round_keeps_the_quotient (n P : Z) :
  0 <= n -> 120 < P ->
  let m := round_half_even (n * P) 120 in
  0 <= m /\ m / P = n / 120 /\ m < (n / 120 + 1) * P.
Proof.
  intros Hn HP m.
  pose proof (Z.div_mod n 120 ltac:(lia)) as Hq.
  pose proof (Z.mod_pos_bound n 120 ltac:(lia)) as Hr.
  pose proof (Z.div_mod (n * P) 120 ltac:(lia)) as HA.
  pose proof (Z.mod_pos_bound (n * P) 120 ltac:(lia)) as HR.
  set (q := n / 120) in *. set (r := n mod 120) in *.
  set (A := (n * P) / 120) in *. set (R := (n * P) mod 120) in *.
  assert (Hlow : q * P <= A) by nia.
  assert (Hhigh : A + 1 < (q + 1) * P) by nia.
  assert (Hq0 : 0 <= q) by (apply Z.div_pos; lia).
  assert (Hm : m = A \/ m = A + 1) by apply round_half_even_cases.
  assert (Hb : q * P <= m < (q + 1) * P) by lia.
  split; [nia | split; [| lia]].
  symmetry. apply (Z.div_unique m P q (m - q * P)); lia.
Qed.

Lemma binary64_of_notches (delta : Z) :
  delta <> 0 -> - 2 ^ 31 <= delta < 2 ^ 31 ->
  exists m k,
    binary64 (delta # 120) = Finite (Qred ((Z.sgn delta * m * 1) # Z.to_pos (2 ^ k))) /\
    0 <= m /\ 0 <= k /\ m / 2 ^ k = Z.abs delta / 120.
Proof.
  intros Hnz Hrange.
  unfold binary64. cbn [Qnum Qden].
  set (n := Z.abs delta).
  assert (Hn : 0 < n <= 2 ^ 31) by (unfold n; lia).
  destruct (Z.eqb_spec n 0) as [E | _]; [lia |].
  change (Z.log2 120) with 6.
  assert (Hlog : 0 <= Z.log2 n <= 31).
  { split; [apply Z.log2_nonneg |].
    rewrite <- (Z.log2_pow2 31) by lia. apply Z.log2_le_mono. lia. }
  set (e0 := Z.log2 n - 6) in *.
  set (e := if n * 2 ^ Z.max 0 (- e0) <? 120 * 2 ^ Z.max 0 e0 then e0 - 1 else e0).
  assert (He : e0 - 1 <= e <= e0).
  { unfold e. destruct (n * 2 ^ Z.max 0 (- e0) <? 120 * 2 ^ Z.max 0 e0); lia. }
  assert (Hex : Z.max (e - 52) (-1074) = e - 52) by (unfold e0 in He; lia).
  rewrite Hex.
  assert (Hk : Z.max 0 (- (e - 52)) = 52 - e) by (unfold e0 in He; lia).
  assert (H0 : Z.max 0 (e - 52) = 0) by (unfold e0 in He; lia).
  rewrite Hk, H0. change (2 ^ 0) with 1. rewrite Z.mul_1_r.
  set (k := 52 - e) in *.
  assert (Hkb : 27 <= k <= 59) by (unfold k, e0 in *; lia).
  assert (HP : 120 < 2 ^ k).
  { apply Z.lt_le_trans with (2 ^ 27); [reflexivity |].
    apply Z.pow_le_mono_r; lia. }
  destruct (round_keeps_the_quotient n (2 ^ k) ltac:(lia) HP) as (Hm0 & Hdiv & Hmb).
  change (120 * 1) with 120.
  set (m := round_half_even (n * 2 ^ k) 120) in *.
  assert (Hsmall : m < 2 ^ 1024).
  { assert (Hq : n / 120 + 1 <= 2 ^ 31).
    { assert (n / 120 < n) by (apply Z.div_lt; lia). lia. }
    assert (Hp : 2 ^ k <= 2 ^ 59) by (apply Z.pow_le_mono_r; lia).
    assert (Hq0 : 0 <= n / 120) by (apply Z.div_pos; lia).
    assert (Hprod : (n / 120 + 1) * 2 ^ k <= 2 ^ 31 * 2 ^ 59).
    { apply Z.mul_le_mono_nonneg; lia. }
    rewrite <- Z.pow_add_r in Hprod by lia.
    apply Z.lt_le_trans with (2 ^ (31 + 59)); [lia |].
    apply Z.pow_le_mono_r; lia. }
  destruct (Z.leb_spec (2 ^ 1024) m) as [Hbig | _]; [lia |].
  exists m, k. repeat split; auto. lia.
Qed.

Lemma int_of_float_comp (q q' : Q) :
  q == q' -> int_of_float (Finite q) = int_of_float (Finite q').
Proof.
  intros E. unfold int_of_float.
  rewrite (Qleb_comp 0%Q 0%Q (Qeq_refl 0%Q) q q' E).
  now rewrite (Qfloor_comp q q' E), (Qceiling_comp q q' E).
Qed.

Lemma int_of_fraction_value (a P : Z) :
  0 < P ->
  int_of_float (Finite (a # Z.to_pos P)) = Some (if 0 <=? a then a / P else - (- a / P)).
Proof.
  intros HP. unfold int_of_float, Qle_bool, Qceiling, Qfloor, Qopp. cbn [Qnum Qden].
  rewrite Z2Pos.id by exact HP. rewrite Z.mul_1_r. reflexivity.
Qed.

Lemma int_of_fraction (s m P : Z) :
  0 <= m -> 0 < P -> (s = 1 \/ s = -1) ->
  int_of_float (Finite (- ((s * m * 1) # Z.to_pos P))) = Some (- s * (m / P)).
Proof.
  intros Hm HP Hs.
  change (- ((s * m * 1) # Z.to_pos P))%Q with ((- (s * m * 1)) # Z.to_pos P).
  rewrite (int_of_fraction_value _ P HP). f_equal.
  destruct Hs as [-> | ->].
  - replace (- (1 * m * 1)) with (- m) by lia.
    replace (- - m) with m by lia.
    destruct (Z.leb_spec 0 (- m)) as [Hle | Hlt]; [| lia].
    assert (m = 0) by lia. subst m. reflexivity.
  - replace (- (-1 * m * 1)) with m by lia.
    destruct (Z.leb_spec 0 m) as [Hle | Hlt]; lia.
Qed.

(** X12.  For a wheel event whose [delta] fits in 32 bits, [_on_mousewheel]
    does not raise and scrolls the canvas by the whole number of notches of
    120 in [delta], with the sign turned and the remainder dropped towards
    zero: a [delta] below 120 in size scrolls nothing, and a [delta] of so
    many times 120 scrolls by as many units the other way. *)
Theorem X12_wheel_scrolls_by_whole_notches (delta : Z) :
  - 2 ^ 31 <= delta < 2 ^ 31 ->
  _on_mousewheel delta = Some (- Z.quot delta 120) /\
  (Z.abs delta < 120 -> _on_mousewheel delta = Some 0) /\
  (forall notches, delta = 120 * notches -> _on_mousewheel delta = Some (- notches)).
Proof.
  intros Hrange.
  assert (Hmain : _on_mousewheel delta = Some (- Z.quot delta 120)).
  { destruct (Z.eq_dec delta 0) as [-> | Hnz]; [reflexivity |].
    unfold _on_mousewheel, int_truediv.
    change (120 =? 0) with false. change (0 <? 120) with true. cbv iota.
    change (Z.to_pos 120) with 120%positive.
    destruct (binary64_of_notches delta Hnz Hrange) as (m & k & -> & Hm & Hk & Hdiv).
    unfold neg_one_times.
    rewrite (int_of_float_comp _ (- ((Z.sgn delta * m * 1) # Z.to_pos (2 ^ k)))%Q).
    - assert (HP : 0 < 2 ^ k) by (apply Z.pow_pos_nonneg; lia).
      rewrite int_of_fraction by (auto; lia). f_equal. rewrite Hdiv.
      destruct (Z.lt_total delta 0) as [Hneg | [-> | Hpos]]; [| lia |].
      + rewrite (Z.sgn_neg delta Hneg), Z.abs_neq by lia.
        rewrite <- (Z.opp_involutive delta) at 2.
        rewrite Z.quot_opp_l by lia. rewrite Z.quot_div_nonneg by lia. lia.
      + rewrite (Z.sgn_pos delta Hpos), Z.abs_eq by lia.
        rewrite Z.quot_div_nonneg by lia. lia.
    - apply Qopp_comp, Qred_correct. }
  split; [exact Hmain |]. split.
  - intros Hsmall. rewrite Hmain.
    assert (E : Z.quot delta 120 = 0) by (apply Z.quot_small_iff; lia).
    now rewrite E.
  - intros notches ->. rewrite Hmain, Z.mul_comm, Z.quot_mul by lia. reflexivity.
Qed.

(** X12 for one notch and a half, upwards. *)
Lemma X12_a_notch_and_a_half :
  _on_mousewheel 180 = Some (- Z.quot 180 120) /\
  (Z.abs 180 < 120 -> _on_mousewheel 180 = Some 0) /\
  (forall notches, 180 = 120 * notches -> _on_mousewheel 180 = Some (- notches)).
Proof. apply (X12_wheel_scrolls_by_whole_notches 180). lia. Defined.

(* ------------------------------------------------------------------------- *)
(** * The confidence shown *)
(* ------------------------------------------------------------------------- *)








(* ------------------------------------------------------------------------- *)
(** * What the forest is fitted on *)
(* ------------------------------------------------------------------------- *)

(** X14.  For data drawn as numpy draws it, the module body fits the forest
    on 240 of the 300 rows and as many labels; every training row comes with
    the crop drawn for it, and its label decodes to that crop. *)
Theorem X14_forest_is_fitted_on_240_rows_with_their_own_labels (d : draws) :
  well_drawn d ->
  List.length (training_rows d) = 240%nat /\
  List.length (training_labels d) = 240%nat /\
  incl (combine (training_rows d) (training_crops d)) (combine (X_rows d) (Crop d)) /\
  map (inverse_transform (fst (fit_transform (Crop d)))) (training_labels d)
    = map Some (training_crops d).
Proof.
  intros Hd. pose proof (training_crops_length d Hd) as Hlen.
  destruct Hd as (HX & HC & _ & Hperm).
  split; [| split; [| split]].
  - rewrite <- Hlen. unfold training_rows, training_crops, train_test_split. simpl.
    assert (Hin : Forall (fun i => (i < 300)%nat)
                    (firstn (List.length (X_rows d) - n_test (List.length (X_rows d)))
                       (skipn (n_test (List.length (X_rows d))) (permutation d)))).
    { apply Forall_forall. intros i Hi. apply firstn_In, skipn_In in Hi.
      apply (Permutation_in _ Hperm), in_seq in Hi. apply Hi. }
    rewrite !SklearnFacts.take_length; [reflexivity | |];
      (eapply Forall_impl; [| exact Hin]); intros i Hi; [rewrite HC | rewrite HX]; exact Hi.
  - now rewrite training_labels_encode, length_map.
  - unfold training_rows, training_crops, train_test_split. simpl.
    rewrite <- take_combine by (now rewrite HX, HC).
    intros pair Hpair. eapply SklearnFacts.take_In; eauto.
  - rewrite training_labels_encode, map_map. apply map_ext_in. intros c Hc.
    unfold inverse_transform, fit_transform. simpl.
    apply SklearnFacts.index_of_nth_error, SklearnFacts.np_unique_In.
    now apply training_crops_drawn.
Qed.

(** X14 on the sample data. *)
Lemma X14_sample_training_rows :
  List.length (training_rows Sample.drawn) = 240%nat /\
  List.length (training_labels Sample.drawn) = 240%nat /\
  incl (combine (training_rows Sample.drawn) (training_crops Sample.drawn))
       (combine (X_rows Sample.drawn) (Crop Sample.drawn)) /\
  map (inverse_transform (fst (fit_transform (Crop Sample.drawn))))
      (training_labels Sample.drawn)
    = map Some (training_crops Sample.drawn).
Proof.
  apply (X14_forest_is_fitted_on_240_rows_with_their_own_labels Sample.drawn).
  exact SampleFacts.drawn_well.
Defined.
